(** * piston: the v2 API routes and the mono compile script

    A shallow embedding of [api/src/api/v2.js] (request validation in
    [get_job], the [POST /execute] route, the [/connect] WebSocket
    session) and of [packages/mono/6.12.0/compile], with the properties
    the specification states about them. *)

From Stdlib Require Import String Ascii List ZArith QArith Bool Lia DecimalString.
Import ListNotations.
Local Open Scope string_scope.
Local Open Scope Z_scope.
Set Warnings "-register-all".

(** ** JavaScript values, as far as the routes inspect them *)

Module JS.

(** A JavaScript number that [JSON.parse] can produce: a finite value
    (kept exact, as a rational) or an infinity.  [0] and [-0] behave
    alike under every operation used below, so they are one value. *)
Inductive number :=
| Finite (q : Q)
| Infinity (negative : bool).

Inductive value :=
| Undefined
| Null
| Bool (b : bool)
| Num (n : number)
| Str (s : string)
| Arr (items : list value)
| Obj (props : list (string * value)).

(** What a [throw] or a [reject] carries: a plain value (the routes reject
    with object literals [{message}]) or an instance of [Error]. *)
Inductive thrown :=
| Rejected (v : value)
| ErrorObject (name message : string).

Inductive outcome (A : Type) :=
| Ok (a : A)
| Throw (e : thrown).
Arguments Ok {A} a.
Arguments Throw {A} e.

Definition of_Z (z : Z) : number := Finite (inject_Z z).

(** [typeof v] *)
Definition typeof (v : value) : string :=
  match v with
  | Undefined => "undefined"
  | Null => "object"
  | Bool _ => "boolean"
  | Num _ => "number"
  | Str _ => "string"
  | Arr _ => "object"
  | Obj _ => "object"
  end.

(** ToBoolean *)
Definition truthy (v : value) : bool :=
  match v with
  | Undefined | Null => false
  | Bool b => b
  | Num (Finite q) => negb (Qeq_bool q 0)
  | Num (Infinity _) => true
  | Str s => negb (String.eqb s "")
  | Arr _ | Obj _ => true
  end.

(** [a || b] *)
Definition or (a b : value) : value := if truthy a then a else b.

(** [Array.isArray(v)] *)
Definition isArray (v : value) : bool :=
  match v with Arr _ => true | _ => false end.

(** [a > b], [a < b] on numbers *)
Definition gt (a b : number) : bool :=
  match a, b with
  | Finite x, Finite y => match (x ?= y)%Q with Gt => true | _ => false end
  | Infinity na, Infinity nb => negb na && nb
  | Infinity na, Finite _ => negb na
  | Finite _, Infinity nb => nb
  end.

Definition lt (a b : number) : bool := gt b a.

Fixpoint assoc (k : string) (props : list (string * value)) : value :=
  match props with
  | [] => Undefined
  | (k', v) :: rest => if String.eqb k k' then v else assoc k rest
  end.

(** The property read [v.k], for the keys the routes read (none of them
    is inherited from a prototype): an own property of an object,
    [undefined] on arrays and primitives, a [TypeError] on [undefined] and
    [null].  An object holds each key once, as [JSON.parse] builds it. *)
Definition prop (v : value) (k : string) : outcome value :=
  match v with
  | Undefined => Throw (ErrorObject "TypeError"
      ("Cannot read properties of undefined (reading '" ++ k ++ "')"))
  | Null => Throw (ErrorObject "TypeError"
      ("Cannot read properties of null (reading '" ++ k ++ "')"))
  | Obj props => Ok (assoc k props)
  | _ => Ok Undefined
  end.

(** [e.message], read from something caught: the property read of
    [prop], which throws on [undefined] and [null]. *)
Definition message_of (e : thrown) : outcome value :=
  match e with
  | Rejected v => prop v "message"
  | ErrorObject _ m => Ok (Str m)
  end.

(** String conversion of an integer and of an array index: the decimal
    digits.  JavaScript prints a number so when it is a safe integer, of
    magnitude at most [2^53 - 1]; above, it prints the shortest digits
    that tell the number from its neighbours, in exponent form from
    [10^21] on, which is not modelled: what is stated below about a
    printed ceiling takes the ceiling to be a safe integer. *)
Definition MAX_SAFE_INTEGER : Z := 9007199254740991.

Definition safe_integer (z : Z) : Prop :=
  - MAX_SAFE_INTEGER <= z <= MAX_SAFE_INTEGER.

Definition string_of_Z (z : Z) : string := NilZero.string_of_int (Z.to_int z).
Definition string_of_index (i : nat) : string := NilZero.string_of_uint (Nat.to_uint i).

(** [{ message: m }] *)
Definition with_message (m : string) : value := Obj [("message", Str m)].

End JS.

Import JS.

(** ** Request validation: [get_job] *)

Module Api.

(** A runtime descriptor, with the fields the routes read. *)
Record Runtime := {
  language : string;
  version_raw : string;
  aliases : list string;
  runtime_label : string
}.

(** The two ceilings of [config] that [get_job] reads (byte counts; a
    negative ceiling means none is configured). *)
Record Config := {
  compile_memory_limit : Z;
  run_memory_limit : Z
}.

(** The argument [get_job] hands to [new Job(...)]. *)
Record Job := {
  runtime : Runtime;
  alias : value;
  args : value;
  stdin : value;
  files : value;
  timeouts_run : value;
  timeouts_compile : value;
  memory_limits_run : value;
  memory_limits_compile : value
}.

Definition reject {A} (m : string) : outcome A := Throw (Rejected (with_message m)).

(** The loop over [files.entries()] *)
Fixpoint check_files (i : nat) (fs : list value) : option thrown :=
  match fs with
  | [] => None
  | file :: rest =>
      match prop file "content" with
      | Throw e => Some e
      | Ok content =>
          if negb (String.eqb (typeof content) "string")
          then Some (Rejected (with_message
                 ("files[" ++ string_of_index i ++ "].content is required as a string")))
          else check_files (S i) rest
      end
  end.

(** One of the two memory-limit blocks: [name] is the field's name,
    [limit] the request's value and [ceiling] the configured one. *)
Definition check_memory_limit (name : string) (limit : value) (ceiling : Z)
  : option thrown :=
  if truthy limit then
    match limit with
    | Num n =>
        if (0 <=? ceiling) && (gt n (of_Z ceiling) || lt n (of_Z 0))
        then Some (Rejected (with_message
               (name ++ " cannot exceed the configured limit of " ++ string_of_Z ceiling)))
        else None
    | _ => Some (Rejected (with_message
             ("if specified, " ++ name ++ " must be a number")))
    end
  else None.

Section GetJob.

Variable config : Config.
(** [runtime.get_latest_runtime_matching_language_version] *)
Variable get_latest_runtime_matching_language_version : string -> string -> option Runtime.

Definition field (body : value) (k : string) : value :=
  match prop body k with Ok v => v | Throw _ => Undefined end.

(** The items of an array, and the text of a string. *)
Definition items_of (v : value) : list value :=
  match v with Arr l => l | _ => [] end.
Definition text_of (v : value) : string :=
  match v with Str s => s | _ => "" end.

Definition get_job (body : value) : outcome Job :=
  (* the destructuring of [body] throws on [undefined] and [null] *)
  match prop body "language" with
  | Throw e => Throw e
  | Ok _ =>
  let language := field body "language" in
  let version := field body "version" in
  let args := field body "args" in
  let stdin := field body "stdin" in
  let files := field body "files" in
  let compile_memory_limit := field body "compile_memory_limit" in
  let run_memory_limit := field body "run_memory_limit" in
  let run_timeout := field body "run_timeout" in
  let compile_timeout := field body "compile_timeout" in
  if negb (truthy language) || negb (String.eqb (typeof language) "string")
  then reject "language is required as a string"
  else if negb (truthy version) || negb (String.eqb (typeof version) "string")
  then reject "version is required as a string"
  else if negb (truthy files) || negb (isArray files)
  then reject "files is required as an array"
  else
  match check_files 0 (items_of files) with
  | Some e => Throw e
  | None =>
  match check_memory_limit "compile_memory_limit" compile_memory_limit
          config.(Api.compile_memory_limit) with
  | Some e => Throw e
  | None =>
  match check_memory_limit "run_memory_limit" run_memory_limit
          config.(Api.run_memory_limit) with
  | Some e => Throw e
  | None =>
  match get_latest_runtime_matching_language_version
          (text_of language) (text_of version) with
  | None => reject (text_of language ++ "-" ++ text_of version ++ " runtime is unknown")
  | Some rt =>
      Ok {| runtime := rt;
            alias := language;
            args := or args (Arr []);
            stdin := or stdin (Str "");
            files := files;
            timeouts_run := or run_timeout (Num (of_Z 3000));
            timeouts_compile := or compile_timeout (Num (of_Z 10000));
            memory_limits_run :=
              or run_memory_limit (Num (of_Z config.(Api.run_memory_limit)));
            memory_limits_compile :=
              or compile_memory_limit (Num (of_Z config.(Api.compile_memory_limit))) |}
  end end end end
  end.

(** *** The requests [get_job] accepts, in words

    A request is accepted when [language] and [version] are non-empty
    strings, [files] is an array whose items each have a string
    [content], each memory limit is either absent (falsy) or a number
    that, when a ceiling is configured (a ceiling [>= 0]), lies between
    [0] and the ceiling, and a runtime matches. *)

Definition nonempty_string (v : value) : bool :=
  match v with Str s => negb (String.eqb s "") | _ => false end.

Definition has_string_content (file : value) : bool :=
  match prop file "content" with Ok (Str _) => true | _ => false end.

Definition within_ceiling (limit : value) (ceiling : Z) : bool :=
  match limit with
  | Num n => negb (truthy limit)
             || (ceiling <? 0)
             || (negb (gt n (of_Z ceiling)) && negb (lt n (of_Z 0)))
  | _ => negb (truthy limit)
  end.

Definition well_formed (body : value) : bool :=
  nonempty_string (field body "language")
  && nonempty_string (field body "version")
  && isArray (field body "files")
  && forallb has_string_content (items_of (field body "files")).

Definition runtime_of (body : value) : option Runtime :=
  get_latest_runtime_matching_language_version
    (text_of (field body "language")) (text_of (field body "version")).

Definition accepts (body : value) : bool :=
  well_formed body
  && within_ceiling (field body "compile_memory_limit") config.(Api.compile_memory_limit)
  && within_ceiling (field body "run_memory_limit") config.(Api.run_memory_limit)
  && match runtime_of body with Some _ => true | None => false end.

(** The job built from an accepted request and its runtime. *)
Definition job_of (rt : Runtime) (body : value) : Job :=
  {| runtime := rt;
     alias := field body "language";
     args := or (field body "args") (Arr []);
     stdin := or (field body "stdin") (Str "");
     files := field body "files";
     timeouts_run := or (field body "run_timeout") (Num (of_Z 3000));
     timeouts_compile := or (field body "compile_timeout") (Num (of_Z 10000));
     memory_limits_run :=
       or (field body "run_memory_limit") (Num (of_Z config.(Api.run_memory_limit)));
     memory_limits_compile :=
       or (field body "compile_memory_limit")
          (Num (of_Z config.(Api.compile_memory_limit))) |}.

(** The conditions the specification lists for a rejection, taken
    literally: a field that is missing or of the wrong type, a file whose
    [content] is not a string, or no matching runtime. *)
Definition listed_rejection (body : value) : bool :=
  negb (String.eqb (typeof (field body "language")) "string")
  || negb (String.eqb (typeof (field body "version")) "string")
  || negb (isArray (field body "files"))
  || negb (forallb has_string_content (items_of (field body "files")))
  || match runtime_of body with Some _ => false | None => true end.

End GetJob.

(** The two memory limits of a request, by phase. *)
Inductive phase := Compile | Run.

Definition other (p : phase) : phase :=
  match p with Compile => Run | Run => Compile end.

Definition limit_field (p : phase) : string :=
  match p with
  | Compile => "compile_memory_limit"
  | Run => "run_memory_limit"
  end.

Definition ceiling (config : Config) (p : phase) : Z :=
  match p with
  | Compile => config.(compile_memory_limit)
  | Run => config.(run_memory_limit)
  end.

Definition granted (j : Job) (p : phase) : value :=
  match p with
  | Compile => j.(memory_limits_compile)
  | Run => j.(memory_limits_run)
  end.

(** Both ceilings are safe integers. *)
Definition safe_ceilings (config : Config) : Prop :=
  safe_integer config.(compile_memory_limit)
  /\ safe_integer config.(run_memory_limit).

(** A request that can be read through: it is not [null] or [undefined]
    itself, and neither is any of its files. *)
Definition nullish (v : value) : bool :=
  match v with Undefined | Null => true | _ => false end.

Definition readable (body : value) : bool :=
  negb (nullish body)
  && forallb (fun file => negb (nullish file)) (items_of (field body "files")).

(** What a message of [get_job] complains about: each message goes with
    the condition of the request that it describes. *)
Inductive complaint (config : Config) (lookup : string -> string -> option Runtime)
    (body : value) : string -> Prop :=
| no_language :
    nonempty_string (field body "language") = false ->
    complaint config lookup body "language is required as a string"
| no_version :
    nonempty_string (field body "version") = false ->
    complaint config lookup body "version is required as a string"
| no_files :
    isArray (field body "files") = false ->
    complaint config lookup body "files is required as an array"
| no_content (i : nat) (file content : value) :
    nth_error (items_of (field body "files")) i = Some file ->
    prop file "content" = Ok content ->
    typeof content <> "string" ->
    complaint config lookup body
      ("files[" ++ string_of_index i ++ "].content is required as a string")
| no_number (p : phase) :
    truthy (field body (limit_field p)) = true ->
    typeof (field body (limit_field p)) <> "number" ->
    complaint config lookup body
      ("if specified, " ++ limit_field p ++ " must be a number")
| beyond_ceiling (p : phase) (n : number) :
    field body (limit_field p) = Num n ->
    truthy (Num n) = true ->
    0 <= ceiling config p ->
    gt n (of_Z (ceiling config p)) = true \/ lt n (of_Z 0) = true ->
    complaint config lookup body
      (limit_field p ++ " cannot exceed the configured limit of "
       ++ string_of_Z (ceiling config p))
| no_runtime :
    nonempty_string (field body "language") = true ->
    nonempty_string (field body "version") = true ->
    runtime_of lookup body = None ->
    complaint config lookup body
      (text_of (field body "language") ++ "-" ++ text_of (field body "version")
       ++ " runtime is unknown").

End Api.

Import Api.

(** ** The job behind the routes *)

Module Engine.

(** Modelled from the spec: the [Job] class ([../job]) with its methods
    [prime], [execute], [execute_interactive] and [cleanup], and the
    isolation provider behind it, which the routes only call.  A job is
    in one of five states and owns at most one sandbox slot; [prime]
    acquires a slot and stages the files, releasing the slot again when
    staging fails; [execute] runs the phases and returns their result;
    [cleanup] releases the slot, from any state, and a second call does
    nothing, the slot being gone. *)
Inductive job_state := Created | Primed | Executing | Done | Cleaned.

(** Modelled from the spec: the methods of [Job] ([../job]) that the
    routes call. *)
Inductive call := Prime | Execute | ExecuteInteractive | Cleanup.

(** Modelled from the spec: what the methods of one [Job] ([../job])
    read and write, namely the job's own state and slot, the free slots of
    the provider, how many slots have been acquired and released so far,
    and the calls made on the job. *)
Record machine := {
  state : job_state;
  slot : option nat;
  free : list nat;
  acquired : nat;
  released : nat;
  calls : list call
}.

(** Modelled from the spec: what is left open by it about a [Job]
    ([../job]), namely how the operating system treats it: whether
    staging the files fails, and what running the phases gives, a result
    or an unexpected error. *)
Record behaviour := {
  staging : option thrown;
  execution : outcome value
}.

(** The state and error monad of an [async] function body: [await] of a
    rejected promise throws. *)
Definition M (A : Type) : Type := machine -> outcome A * machine.

Definition ret {A} (a : A) : M A := fun m => (Ok a, m).

Definition bind {A B} (c : M A) (k : A -> M B) : M B :=
  fun m => match c m with
           | (Ok a, m') => k a m'
           | (Throw e, m') => (Throw e, m')
           end.

Definition lift {A} (o : outcome A) : M A := fun m => (o, m).

(** [try { c } catch (error) { h error }] *)
Definition try_catch {A} (c : M A) (h : thrown -> M A) : M A :=
  fun m => match c m with
           | (Ok a, m') => (Ok a, m')
           | (Throw e, m') => h e m'
           end.

Notation "x <- c ;; k" := (bind c (fun x => k))
  (at level 61, c at next level, right associativity).
Notation "c ;;; k" := (bind c (fun _ => k))
  (at level 61, right associativity).

Definition exhausted : thrown := ErrorObject "Error" "no free sandbox slot".

(** Modelled from the spec: the constructor of [Job] ([../job]) gives
    a fresh job, in state Created and without a slot. *)
Definition new_job : M unit :=
  fun m => (Ok tt, {| state := Created; slot := None; free := m.(free);
                      acquired := m.(acquired); released := m.(released);
                      calls := [] |}).

(** A method is entered. *)
Definition called (c : call) : M unit :=
  fun m => (Ok tt, {| state := m.(state); slot := m.(slot); free := m.(free);
                      acquired := m.(acquired); released := m.(released);
                      calls := (m.(calls) ++ [c])%list |}).

(** Modelled from the spec: [Job.prime] ([../job]) acquires a slot,
    failing when none is free, and stages the files; when staging fails
    the slot is released before the error is thrown and the job stays
    Created. *)
Definition staged (b : behaviour) : M unit :=
  fun m =>
    match m.(free) with
    | [] => (Throw exhausted, m)
    | k :: rest =>
        match b.(staging) with
        | Some e =>
            (Throw e, {| state := Created; slot := None; free := m.(free);
                         acquired := S m.(acquired); released := S m.(released);
                         calls := m.(calls) |})
        | None =>
            (Ok tt, {| state := Primed; slot := Some k; free := rest;
                       acquired := S m.(acquired); released := m.(released);
                       calls := m.(calls) |})
        end
    end.

(** Modelled from the spec: [Job.prime] ([../job]), the call and what it
    comes to. *)
Definition prime (b : behaviour) : M unit :=
  called Prime ;;; staged b.

(** Modelled from the spec: the compile and run phases of [Job]
    ([../job]); a stage failure is part of the result, an unexpected
    error is thrown and leaves the job in the middle of the phases, still
    holding its slot. *)
Definition phases (b : behaviour) : M value :=
  fun m =>
    match b.(execution) with
    | Ok result =>
        (Ok result, {| state := Done; slot := m.(slot); free := m.(free);
                       acquired := m.(acquired); released := m.(released);
                       calls := m.(calls) |})
    | Throw e =>
        (Throw e, {| state := Executing; slot := m.(slot); free := m.(free);
                     acquired := m.(acquired); released := m.(released);
                     calls := m.(calls) |})
    end.

(** Modelled from the spec: [Job.execute] ([../job]). *)
Definition execute (b : behaviour) : M value :=
  called Execute ;;; phases b.

(** Modelled from the spec: [Job.execute_interactive] ([../job]), the
    same phases, streamed over the bus. *)
Definition execute_interactive (b : behaviour) : M unit :=
  called ExecuteInteractive ;;; _ <- phases b ;; ret tt.

(** Modelled from the spec: [Job.cleanup] ([../job]) releases the slot
    and leaves the job Cleaned, from any state; it never throws, and a
    second call finds no slot to release. *)
Definition cleanup : M unit :=
  called Cleanup ;;;
  fun m =>
    match m.(slot) with
    | Some k =>
        (Ok tt, {| state := Cleaned; slot := None; free := k :: m.(free);
                   acquired := m.(acquired); released := S m.(released);
                   calls := m.(calls) |})
    | None =>
        (Ok tt, {| state := Cleaned; slot := None; free := m.(free);
                   acquired := m.(acquired); released := m.(released);
                   calls := m.(calls) |})
    end.

(** A provider with [n] free slots and no job yet. *)
Definition idle (n : nat) : machine :=
  {| state := Created; slot := None; free := seq 0 n; acquired := 0; released := 0;
     calls := [] |}.

End Engine.

Import Engine.

(** ** [router.post('/execute')] *)

Module Execute.

Record response := {
  status : Z;
  body : value
}.

(** [res.json(error)]: a rejection object is sent as it is; an [Error]
    instance has no enumerable property and serialises to [{}]. *)
Definition json (e : thrown) : value :=
  match e with
  | Rejected v => v
  | ErrorObject _ _ => Obj []
  end.

Section Route.

Variable config : Config.
Variable get_latest_runtime_matching_language_version : string -> string -> option Runtime.
Variable b : behaviour.

Definition post_execute (req_body : value) : M response :=
  try_catch
    (job <- lift (get_job config get_latest_runtime_matching_language_version req_body) ;;
     new_job ;;;
     prime b ;;;
     result <- execute b ;;
     cleanup ;;;
     ret {| status := 200; body := result |})
    (fun error => ret {| status := 400; body := json error |}).

End Route.

End Execute.

(** ** [router.ws('/connect')] *)

Module Connect.

(** The allow-list of signal names. *)
Definition SIGNALS : list string :=
  ["SIGABRT";"SIGALRM";"SIGBUS";"SIGCHLD";"SIGCLD";"SIGCONT";"SIGEMT";"SIGFPE";
   "SIGHUP";"SIGILL";"SIGINFO";"SIGINT";"SIGIO";"SIGIOT";"SIGKILL";"SIGLOST";
   "SIGPIPE";"SIGPOLL";"SIGPROF";"SIGPWR";"SIGQUIT";"SIGSEGV";"SIGSTKFLT";
   "SIGSTOP";"SIGTSTP";"SIGSYS";"SIGTERM";"SIGTRAP";"SIGTTIN";"SIGTTOU";
   "SIGUNUSED";"SIGURG";"SIGUSR1";"SIGUSR2";"SIGVTALRM";"SIGXCPU";"SIGXFSZ";
   "SIGWINCH"].

(** [SIGNALS.includes(v)]: only a string can equal an entry. *)
Definition includes (names : list string) (v : value) : bool :=
  match v with
  | Str s => existsb (String.eqb s) names
  | _ => false
  end.

(** [v === "text"] *)
Definition is_text (v : value) (text : string) : bool :=
  match v with
  | Str s => String.eqb s text
  | _ => false
  end.

(** What a handler does to the outside: a message sent to the client
    (the object given to [JSON.stringify]), the socket closed with a code
    and a reason, an event emitted on the session's bus. *)
Inductive effect :=
| Send (msg : value)
| Close (code : Z) (reason : string)
| Emit (topic : string) (arg : value).

(** A frame from the client: text [JSON.parse] accepts, with the value it
    gives, or text it rejects with a [SyntaxError]. *)
Inductive frame :=
| Parsed (msg : value)
| Unparsable (message : string).

(** What the job publishes on the bus for the client. *)
Inductive published :=
| Stdout (data : string)
| Stderr (data : string)
| Stage (stage : string)
| Exit (stage : string) (status : list (string * value)).

(** What can happen to a session: a frame arrives, dispatched on its
    own (see [on_message]), the promise of
    [job.prime()] or of [job.execute_interactive(eventBus)] settles, the
    job publishes on the bus, the socket closes, the timer set at
    connection (after [init_timeout] milliseconds) fires. *)
Inductive event :=
| Message (f : frame)
| PrimeSettled
| ExecuteSettled
| Published (p : published)
| SocketClosed
| TimerFired.

(** Where the handler of the [init] message stands. *)
Inductive progress := Idle | AwaitingPrime | AwaitingExecute | Finished.

Record session := {
  job : option Job;       (* [let job = null] *)
  init : progress;
  engine : machine
}.

Definition init_timeout : Z := 1000.

(** A new connection: no job, and one timer. *)
Definition connect (m : machine) : session * list (Z * event) :=
  ({| job := None; init := Idle; engine := m |}, [(init_timeout, TimerFired)]).

Section Handlers.

Variable config : Config.
Variable get_latest_runtime_matching_language_version : string -> string -> option Runtime.
Variable b : behaviour.

(** The [catch] block of the message handler.  Reading [error.message]
    throws when what was caught is [null] or [undefined]; the handler then
    ends there, nothing sent and nothing closed. *)
Definition notify_error (error : thrown) : list effect :=
  match message_of error with
  | Ok message =>
      [Send (Obj [("type", Str "error"); ("message", message)]);
       Close 4002 "Notified Error"]
  | Throw _ => []
  end.

(** The handler of ['message'] up to where it returns.  It has either
    done with the frame or, for an [init] frame on a session without a
    job, has called [get_job] and waits at [await get_job(msg)], holding
    what the promise settled to; [job] is not assigned yet. *)
Definition receive (s : session) (f : frame)
  : session * list effect * option (outcome Job) :=
  match f with
  | Unparsable m => (s, notify_error (ErrorObject "SyntaxError" m), None)
  | Parsed msg =>
      match prop msg "type" with
      | Throw e => (s, notify_error e, None)
      | Ok type =>
          if is_text type "init" then
            match s.(job) with
            | None =>
                (s, [],
                 Some (get_job config get_latest_runtime_matching_language_version msg))
            | Some _ => (s, [Close 4000 "Already Initialized"], None)
            end
          else if is_text type "data" then
            match s.(job) with
            | Some _ =>
                if is_text (field msg "stream") "stdin"
                then (s, [Emit "stdin" (field msg "data")], None)
                else (s, [Close 4004 "Can only write to stdin"], None)
            | None => (s, [Close 4003 "Not yet initialized"], None)
            end
          else if is_text type "signal" then
            match s.(job) with
            | Some _ =>
                if includes SIGNALS (field msg "signal")
                then (s, [Emit "signal" (field msg "signal")], None)
                else (s, [Close 4005 "Invalid signal"], None)
            | None => (s, [Close 4003 "Not yet initialized"], None)
            end
          else (s, [], None)
      end
  end.

(** The handler resumes from [await get_job(msg)].  A rejection goes to
    the [catch] block.  Otherwise [job] is assigned, whatever it holds by
    then, and [job.prime()] is called on the new job, where the handler
    waits again. *)
Definition resume (s : session) (settled : outcome Job) : session * list effect :=
  match settled with
  | Throw e => (s, notify_error e)
  | Ok j =>
      ({| job := Some j; init := AwaitingPrime;
          engine := snd (called Prime (snd (new_job s.(engine)))) |}, [])
  end.

(** A frame dispatched on its own: its handler runs, and resumes from
    [await get_job(msg)] before anything else happens on the session,
    the promise of [get_job] being settled when it is made.  Several
    frames dispatched in one go, whose handlers all start before any of
    them resumes, are not events of [step]: [receive] and [resume] say
    what each handler does then. *)
Definition on_message (s : session) (f : frame) : session * list effect :=
  match receive s f with
  | (s1, out, None) => (s1, out)
  | (s1, out, Some settled) =>
      let (s2, out2) := resume s1 settled in (s2, (out ++ out2)%list)
  end.

(** The handler of ['message'] resumes when [job.prime()] settles; what
    the call did to the job is applied here.  On success the runtime is
    sent and [job.execute_interactive(eventBus)] is called. *)
Definition on_prime_settled (s : session) : session * list effect :=
  match s.(init), s.(job) with
  | AwaitingPrime, Some j =>
      match staged b s.(engine) with
      | (Ok _, m) =>
          ({| job := s.(job); init := AwaitingExecute;
              engine := snd (called ExecuteInteractive m) |},
           [Send (Obj [("type", Str "runtime");
                       ("language", Str j.(runtime).(language));
                       ("version", Str j.(runtime).(version_raw))])])
      | (Throw e, m) =>
          ({| job := s.(job); init := Finished; engine := m |}, notify_error e)
      end
  | _, _ => (s, [])
  end.

(** ... and when [job.execute_interactive(eventBus)] settles. *)
Definition on_execute_settled (s : session) : session * list effect :=
  match s.(init) with
  | AwaitingExecute =>
      match phases b s.(engine) with
      | (Ok _, m) =>
          ({| job := s.(job); init := Finished; engine := m |},
           [Close 4999 "Job Completed"])
      | (Throw e, m) =>
          ({| job := s.(job); init := Finished; engine := m |}, notify_error e)
      end
  | _ => (s, [])
  end.

(** [{ ...base, k: v }]: the property is set where it stands, or added
    at the end. *)
Fixpoint assign (k : string) (v : value) (props : list (string * value))
  : list (string * value) :=
  match props with
  | [] => [(k, v)]
  | (k', v') :: rest =>
      if String.eqb k k' then (k', v) :: rest else (k', v') :: assign k v rest
  end.

(** [{ ...base, ...extra }] *)
Definition spread (base extra : list (string * value)) : list (string * value) :=
  fold_left (fun props kv => assign (fst kv) (snd kv) props) extra base.

(** The four listeners the route puts on the bus *)
Definition on_published (p : published) : list effect :=
  match p with
  | Stdout data =>
      [Send (Obj [("type", Str "data"); ("stream", Str "stdout"); ("data", Str data)])]
  | Stderr data =>
      [Send (Obj [("type", Str "data"); ("stream", Str "stderr"); ("data", Str data)])]
  | Stage stage =>
      [Send (Obj [("type", Str "stage"); ("stage", Str stage)])]
  | Exit stage status =>
      [Send (Obj (spread [("type", Str "exit"); ("stage", Str stage)] status))]
  end.

(** The handler of ['close'] *)
Definition on_close (s : session) : session * list effect :=
  match s.(job) with
  | Some _ =>
      ({| job := s.(job); init := s.(init); engine := snd (cleanup s.(engine)) |}, [])
  | None => (s, [])
  end.

(** The callback given to [setTimeout] *)
Definition on_timeout (s : session) : session * list effect :=
  match s.(job) with
  | None => (s, [Close 4001 "Initialization Timeout"])
  | Some _ => (s, [])
  end.

Definition step (s : session) (e : event) : session * list effect :=
  match e with
  | Message f => on_message s f
  | PrimeSettled => on_prime_settled s
  | ExecuteSettled => on_execute_settled s
  | Published p => (s, on_published p)
  | SocketClosed => on_close s
  | TimerFired => on_timeout s
  end.

(** A session run over a sequence of events, with everything it did. *)
Fixpoint run (s : session) (es : list event) : session * list effect :=
  match es with
  | [] => (s, [])
  | e :: rest =>
      let (s1, out1) := step s e in
      let (s2, out2) := run s1 rest in
      (s2, (out1 ++ out2)%list)
  end.

(** An [init] frame that [get_job] accepts. *)
Definition creates_job (e : event) : bool :=
  match e with
  | Message (Parsed msg) =>
      match prop msg "type" with
      | Ok type =>
          is_text type "init"
          && match get_job config get_latest_runtime_matching_language_version msg with
             | Ok _ => true
             | Throw _ => false
             end
      | Throw _ => false
      end
  | _ => false
  end.

End Handlers.

End Connect.

(** ** [packages/mono/6.12.0/compile] *)

Module Mono.

Definition newline : string := String (ascii_of_nat 10) "".

(** *** [grep -q 'error [A-Z]\+[0-9]\+:']

    [grep] looks for the pattern in each line; no character of the
    pattern matches a line break, so a match in the text is a match in one
    of its lines. *)

Definition is_upper (c : ascii) : bool :=
  let n := nat_of_ascii c in (65 <=? n)%nat && (n <=? 90)%nat.

Definition is_digit (c : ascii) : bool :=
  let n := nat_of_ascii c in (48 <=? n)%nat && (n <=? 57)%nat.

(** The longest prefix of characters in a class, and the rest. *)
Fixpoint span (p : ascii -> bool) (s : string) : string * string :=
  match s with
  | String c t =>
      if p c then let (a, r) := span p t in (String c a, r) else ("", s)
  | EmptyString => ("", "")
  end.

(** The text after a literal prefix. *)
Fixpoint strip (pre s : string) : option string :=
  match pre, s with
  | EmptyString, _ => Some s
  | String a p, String c t => if Ascii.eqb a c then strip p t else None
  | String _ _, EmptyString => None
  end.

(** The pattern matches at the start of [s]. *)
Definition error_here (s : string) : bool :=
  match strip "error " s with
  | Some r =>
      let (letters, r1) := span is_upper r in
      let (digits, r2) := span is_digit r1 in
      negb (String.eqb letters "") && negb (String.eqb digits "")
      && match strip ":" r2 with Some _ => true | None => false end
  | None => false
  end.

(** The pattern matches somewhere in [s]. *)
Fixpoint grep_error (s : string) : bool :=
  error_here s
  || match s with
     | String _ t => grep_error t
     | EmptyString => false
     end.

(** The pattern, read as a regular expression: [error], a space, one or
    more capital letters, one or more digits, a colon. *)
Fixpoint all (p : ascii -> bool) (s : string) : Prop :=
  match s with
  | EmptyString => True
  | String c t => p c = true /\ all p t
  end.



(** *** The working directory and the programs the script runs *)

(** The files of the working directory, by name, in the order the shell
    lists them. *)
Definition dir := list (string * string).

Fixpoint read (name : string) (d : dir) : option string :=
  match d with
  | [] => None
  | (n, text) :: rest => if String.eqb name n then Some text else read name rest
  end.

Fixpoint write (name text : string) (d : dir) : dir :=
  match d with
  | [] => [(name, text)]
  | (n, t) :: rest =>
      if String.eqb name n then (n, text) :: rest else (n, t) :: write name text rest
  end.

Fixpoint remove (name : string) (d : dir) : dir :=
  match d with
  | [] => []
  | (n, t) :: rest =>
      if String.eqb name n then remove name rest else (n, t) :: remove name rest
  end.

Definition ends_with (suffix s : string) : bool :=
  (String.length suffix <=? String.length s)%nat
  && String.eqb suffix
       (substring (String.length s - String.length suffix) (String.length suffix) s).

Definition hidden (name : string) : bool :=
  match name with
  | String c _ => Ascii.eqb c "."%char
  | EmptyString => false
  end.

(** A name that lies in a directory below: [*] does not match across
    a slash. *)
Definition has_slash (name : string) : bool :=
  existsb (Ascii.eqb "/"%char) (list_ascii_of_string name).

(** The order in which the shell lists the names a pattern matches: by
    their bytes, as in the C locale. *)
Fixpoint insert (x : string) (sorted : list string) : list string :=
  match sorted with
  | [] => [x]
  | y :: rest => if String.leb x y then x :: sorted else y :: insert x rest
  end.

Definition sort (names : list string) : list string :=
  fold_right insert [] names.

(** Pathname expansion of [*suffix]: the names of the directory that end
    in [suffix], do not start with a dot and hold no slash, sorted, or the
    pattern itself when there is none. *)
Definition expand (suffix : string) (d : dir) : list string :=
  match sort (filter (fun n => ends_with suffix n && negb (hidden n)
                               && negb (has_slash n))
                     (map fst d)) with
  | [] => [("*" ++ suffix)%string]
  | names => names
  end.

(** What a program run by the script does: what it writes to its
    standard output and standard error, its exit status, and the
    directory it leaves. *)
Record tool_result := {
  out : string;
  err : string;
  code : Z;
  after : dir
}.

(** The programs the script takes from the package: each maps its
    arguments and the directory to a result. *)
Record tools := {
  rename : list string -> dir -> tool_result;
  csc : list string -> dir -> tool_result;
  vbnc : list string -> dir -> tool_result
}.

Inductive fd := Stdout | Stderr.

(** The script's process: the directory, what it has written to its two
    streams, and the programs it has run with their arguments. *)
Record process := {
  cwd : dir;
  stdout : string;
  stderr : string;
  ran : list (string * list string)
}.

Definition print (to : fd) (text : string) (p : process) : process :=
  match to with
  | Stdout => {| cwd := p.(cwd); stdout := p.(stdout) ++ text;
                 stderr := p.(stderr); ran := p.(ran) |}
  | Stderr => {| cwd := p.(cwd); stdout := p.(stdout);
                 stderr := p.(stderr) ++ text; ran := p.(ran) |}
  end.

(** [name argv] or, with a file, [name argv > file]: the standard error
    of the program is the script's; its standard output is the script's
    or fills the file. *)
Definition run_tool (name : string) (tool : list string -> dir -> tool_result)
    (argv : list string) (redirect : option string) (p : process) : process * Z :=
  let r := tool argv p.(cwd) in
  ({| cwd := match redirect with
             | Some file => write file r.(out) r.(after)
             | None => r.(after)
             end;
      stdout := match redirect with
                | Some _ => p.(stdout)
                | None => p.(stdout) ++ r.(out)
                end;
      stderr := p.(stderr) ++ r.(err);
      ran := (p.(ran) ++ [(name, argv)])%list |},
   r.(code)).

Definition no_such_file (prog what file : string) : string :=
  prog ++ ": " ++ what ++ file ++ ": No such file or directory" ++ newline.

(** [grep -q 'error [A-Z]\+[0-9]\+:' file] *)
Definition grep_q (file : string) (p : process) : process * Z :=
  match read file p.(cwd) with
  | Some text => (p, if grep_error text then 0 else 1)
  | None => (print Stderr (no_such_file "grep" "" file) p, 2)
  end.

(** [cat file], to one of the two streams *)
Definition cat (file : string) (to : fd) (p : process) : process * Z :=
  match read file p.(cwd) with
  | Some text => (print to text p, 0)
  | None => (print Stderr (no_such_file "cat" "" file) p, 1)
  end.

(** [rm file] *)
Definition rm (file : string) (p : process) : process * Z :=
  match read file p.(cwd) with
  | Some _ =>
      ({| cwd := remove file p.(cwd); stdout := p.(stdout);
          stderr := p.(stderr); ran := p.(ran) |}, 0)
  | None => (print Stderr (no_such_file "rm" "cannot remove " file) p, 1)
  end.

(** [check_errors]: the list [grep && cat 1>&2 || cat], then [rm]; the
    status of the function is that of [rm]. *)
Definition check_errors (p : process) : process * Z :=
  let (p1, found) := grep_q "check.txt" p in
  let (p2, _) :=
    if found =? 0 then
      let (p', shown) := cat "check.txt" Stderr p1 in
      if shown =? 0 then (p', shown) else cat "check.txt" Stdout p'
    else cat "check.txt" Stdout p1 in
  rm "check.txt" p2.

Definition start (d : dir) : process :=
  {| cwd := d; stdout := ""; stderr := ""; ran := [] |}.

(** The script, run with [PISTON_LANGUAGE] set to [lang] (empty when
    unset) and the staged files as arguments; its result is the process
    at the end and the exit status. *)
Definition compile (t : tools) (lang : string) (args : list string) (d : dir)
  : process * Z :=
  if String.eqb lang "csharp" then
    let (p1, _) := run_tool "rename" t.(rename) ("s/$/\.cs/" :: args) None (start d) in
    let (p2, _) := run_tool "csc" t.(csc) ("-out:out" :: expand ".cs" p1.(cwd))
                     (Some "check.txt") p1 in
    check_errors p2
  else if String.eqb lang "basic" then
    let (p1, _) := run_tool "rename" t.(rename) ("s/$/\.vb/" :: args) None (start d) in
    let (p2, _) := run_tool "vbnc" t.(vbnc) ("-out:out" :: expand ".vb" p1.(cwd))
                     (Some "check.txt") p1 in
    check_errors p2
  else
    (print Stdout ("How did you get here? (" ++ lang ++ ")" ++ newline) (start d), 1).

End Mono.

Import Execute Connect.

(** ** [router.use]: the content-type guard *)

Module Guard.

(** What a middleware does with a request: hand it on, or answer it. *)
Inductive verdict :=
| Next
| Answer (r : response).

(** The guard, on the request's method and its [content-type] header
    ([None] when the request has none). *)
Definition content_type_guard (method : string) (content_type : option string)
  : outcome verdict :=
  if existsb (String.eqb method) ["GET"; "HEAD"; "OPTIONS"] then Ok Next
  else
    match content_type with
    | None =>
        Throw (ErrorObject "TypeError"
                 "Cannot read properties of undefined (reading 'startsWith')")
    | Some header =>
        if negb (String.prefix "application/json" header)
        then Ok (Answer {| status := 415;
                           body := with_message
                                     "requests must be of type application/json" |})
        else Ok Next
    end.

End Guard.

(** ** [router.post('/packages')] and [router.delete('/packages')] *)

Module Packages.

(** A package, with what the routes read of it: its language and the
    text of its version. *)
Record Package := {
  pkg_language : string;
  pkg_version : string
}.

Inductive operation := Install | Uninstall.

(** What a route does besides answering: lines given to the logger and
    operations started on a package. *)
Inductive did :=
| LogDebug (text : string)
| LogError (text : string) (detail : value)
| Started (op : operation) (pkg : Package).

Section Routes.

(** The conversion of a value to a string in a template literal. *)
Variable to_string : value -> string.
(** [package.get_package]: the package, or none ([null]). *)
Variable get_package : value -> value -> outcome (option Package).
(** What [pkg.install()] and [pkg.uninstall()] come to. *)
Variable perform : operation -> Package -> outcome value.

Definition request_line (op : operation) : string :=
  match op with
  | Install => "Request to install package"
  | Uninstall => "Request to uninstall package"
  end.

Definition error_line (op : operation) (pkg : Package) : string :=
  match op with
  | Install => "Error while installing package "
  | Uninstall => "Error while uninstalling package "
  end ++ pkg.(pkg_language) ++ "-" ++ pkg.(pkg_version) ++ ":".

(** The two routes differ in the operation and in the lines they log.
    The result is what was done and, unless the handler itself threw,
    the answer. *)
Definition change_package (op : operation) (req_body : value)
  : list did * outcome response :=
  match prop req_body "language" with
  | Throw e => ([LogDebug (request_line op)], Throw e)
  | Ok _ =>
      let language := field req_body "language" in
      let version := field req_body "version" in
      match get_package language version with
      | Throw e => ([LogDebug (request_line op)], Throw e)
      | Ok None =>
          ([LogDebug (request_line op)],
           Ok {| status := 404;
                 body := with_message ("Requested package " ++ to_string language
                                       ++ "-" ++ to_string version
                                       ++ " does not exist") |})
      | Ok (Some pkg) =>
          match perform op pkg with
          | Ok response =>
              ([LogDebug (request_line op); Started op pkg],
               Ok {| status := 200; body := response |})
          | Throw e =>
              (* reading [e.message] throws on a caught [null] or
                 [undefined]: nothing is logged or answered then *)
              match message_of e with
              | Ok message =>
                  ([LogDebug (request_line op); Started op pkg;
                    LogError (error_line op pkg) message],
                   Ok {| status := 500; body := Obj [("message", message)] |})
              | Throw thrown_again =>
                  ([LogDebug (request_line op); Started op pkg], Throw thrown_again)
              end
          end
      end
  end.

Definition post_packages := change_package Install.
Definition delete_packages := change_package Uninstall.

End Routes.

(** The operations started, among what a route did. *)
Definition started (done : list did) : list (operation * Package) :=
  flat_map (fun x => match x with
                     | Started op pkg => [(op, pkg)]
                     | _ => []
                     end) done.

End Packages.

(** ** What a session does, listed *)

Module Trace.

(** The close codes the session uses. *)
Definition close_codes : list Z := [4000; 4001; 4002; 4003; 4004; 4005; 4999].

Definition is_emit (e : effect) : bool :=
  match e with Emit _ _ => true | _ => false end.

(** An effect the session may have towards the job and the client: any
    message sent, a close with one of the codes, the client's input on
    [stdin], an allowed signal on [signal]. *)
Definition permitted (e : effect) : bool :=
  match e with
  | Send _ => true
  | Close code _ => existsb (Z.eqb code) close_codes
  | Emit topic arg =>
      String.eqb topic "stdin"
      || (String.eqb topic "signal" && includes SIGNALS arg)
  end.

(** A frame the message handler has no case for: a value without a
    [type], or with a [type] other than the three it knows. *)
Definition unknown_type (msg : value) : bool :=
  match prop msg "type" with
  | Ok type => negb (is_text type "init") && negb (is_text type "data")
               && negb (is_text type "signal")
  | Throw _ => false
  end.

End Trace.

(** ** More about the script's directory *)

Module Glob.


(** Two results of a program that differ at most in the exit status. *)
Definition same_output (r1 r2 : Mono.tool_result) : Prop :=
  r1.(Mono.out) = r2.(Mono.out) /\ r1.(Mono.err) = r2.(Mono.err)
  /\ r1.(Mono.after) = r2.(Mono.after).

Definition same_outputs (t1 t2 : Mono.tools) : Prop :=
  (forall argv d, same_output (t1.(Mono.rename) argv d) (t2.(Mono.rename) argv d))
  /\ (forall argv d, same_output (t1.(Mono.csc) argv d) (t2.(Mono.csc) argv d))
  /\ (forall argv d, same_output (t1.(Mono.vbnc) argv d) (t2.(Mono.vbnc) argv d)).

End Glob.

(** ** Sample data *)

Module Samples.

Definition python : Runtime :=
  {| language := "python"; version_raw := "3.10.0"; aliases := ["py"; "python3"];
     runtime_label := "" |}.

(** A registry that knows one runtime. *)
Definition registry (lang version : string) : option Runtime :=
  if String.eqb lang "python" || String.eqb lang "py" then Some python else None.

(** No compile ceiling, and a run ceiling of 1000 bytes. *)
Definition ceilings : Config :=
  {| compile_memory_limit := -1; run_memory_limit := 1000 |}.

Definition print_two : value :=
  Obj [("language", Str "python"); ("version", Str "3.10");
       ("files", Arr [Obj [("content", Str "print(1+1)")]])].

Definition with_field (k : string) (v : value) (body : value) : value :=
  match body with
  | Obj props => Obj (props ++ [(k, v)])
  | _ => body
  end.

Definition minus_one : value := Num (of_Z (-1)).

(** A job whose files are staged and whose run then fails with an
    unexpected error of the operating system. *)
Definition broken_pipe : behaviour :=
  {| staging := None; execution := Throw (ErrorObject "Error" "write EPIPE") |}.

(** A job that stages and runs. *)
Definition prints_two : behaviour :=
  {| staging := None;
     execution := Ok (Obj [("language", Str "python"); ("version", Str "3.10.0");
                           ("run", Obj [("stdout", Str "2"); ("code", Num (of_Z 0))])]) |}.

(** A session whose job has been created and is running. *)
Definition running : session :=
  {| job := Some (job_of ceilings python print_two);
     init := AwaitingExecute;
     engine := {| state := Executing; slot := Some 0%nat; free := [1%nat];
                  acquired := 1; released := 0;
                  calls := [Prime; ExecuteInteractive] |} |}.

Definition terminate : value :=
  Obj [("type", Str "signal"); ("signal", Str "SIGTERM")].

Definition hello : value :=
  Obj [("type", Str "data"); ("stream", Str "stdin"); ("data", Str "hello")].

(** A [rename] that gives every staged file the extension asked for, a
    C# compiler that finds a missing semicolon and fails, a Basic
    compiler that has nothing to say. *)
Definition diagnostics : string := "file0.code.cs(1,19): error CS1002: ; expected".

Definition toolbox : Mono.tools :=
  {| Mono.rename := fun argv d =>
       {| Mono.out := ""; Mono.err := ""; Mono.code := 0;
          Mono.after :=
            map (fun f => (fst f ++ (if String.eqb (hd "" argv) "s/$/\.cs/"
                                     then ".cs" else ".vb"), snd f)) d |};
     Mono.csc := fun _ d =>
       {| Mono.out := diagnostics; Mono.err := ""; Mono.code := 1; Mono.after := d |};
     Mono.vbnc := fun _ d =>
       {| Mono.out := ""; Mono.err := ""; Mono.code := 0;
          Mono.after := (d ++ [("out", "")])%list |} |}.

Definition staged : Mono.dir := [("file0.code", "class A { static void Main() {} }")].

End Samples.

(** ** More sample data *)

Module Examples.

(** A request whose second file has a number for content. *)
Definition second_file_bad : list (string * value) :=
  [("language", Str "python"); ("version", Str "3.10");
   ("files", Arr [Obj [("content", Str "print(1+1)")];
                  Obj [("name", Str "data.txt"); ("content", Num (of_Z 7))]])].

(** A request whose second file is [null]. *)
Definition second_file_null : list (string * value) :=
  [("language", Str "python"); ("version", Str "3.10");
   ("files", Arr [Obj [("content", Str "print(1+1)")]; Null])].

(** A request that asks for 500 bytes to run and a run timeout of 0. *)
Definition modest : value :=
  Obj [("language", Str "py"); ("version", Str "3.10");
       ("files", Arr [Obj [("content", Str "print(1+1)")]]);
       ("run_memory_limit", Num (of_Z 500)); ("run_timeout", Num (of_Z 0))].

(** A session that waits for its job to be primed. *)
Definition priming (m : machine) : session :=
  {| job := Some (job_of Samples.ceilings Samples.python Samples.print_two);
     init := AwaitingPrime;
     engine := snd (called Prime (snd (new_job m))) |}.

Definition init_frame : value :=
  Samples.with_field "type" (Str "init") Samples.print_two.

Definition ping : value := Obj [("type", Str "ping")].

(** Tools like those of the samples, except that everything fails. *)
Definition failing (t : Mono.tools) : Mono.tools :=
  {| Mono.rename := fun argv d =>
       {| Mono.out := (t.(Mono.rename) argv d).(Mono.out);
          Mono.err := (t.(Mono.rename) argv d).(Mono.err);
          Mono.code := 2;
          Mono.after := (t.(Mono.rename) argv d).(Mono.after) |};
     Mono.csc := fun argv d =>
       {| Mono.out := (t.(Mono.csc) argv d).(Mono.out);
          Mono.err := (t.(Mono.csc) argv d).(Mono.err);
          Mono.code := 127;
          Mono.after := (t.(Mono.csc) argv d).(Mono.after) |};
     Mono.vbnc := fun argv d =>
       {| Mono.out := (t.(Mono.vbnc) argv d).(Mono.out);
          Mono.err := (t.(Mono.vbnc) argv d).(Mono.err);
          Mono.code := 127;
          Mono.after := (t.(Mono.vbnc) argv d).(Mono.after) |} |}.

(** A package catalogue that knows one package, which installs and
    cannot be removed. *)
Definition mono_package : Packages.Package :=
  {| Packages.pkg_language := "mono"; Packages.pkg_version := "6.12.0" |}.

Definition catalogue (language version : value) : outcome (option Packages.Package) :=
  if is_text language "mono" && is_text version "6.12.0"
  then Ok (Some mono_package) else Ok None.

Definition installs_only (op : Packages.operation) (pkg : Packages.Package)
  : outcome value :=
  match op with
  | Packages.Install =>
      Ok (Obj [("language", Str pkg.(Packages.pkg_language));
               ("version", Str pkg.(Packages.pkg_version))])
  | Packages.Uninstall =>
      Throw (ErrorObject "Error" "package is in use")
  end.

Definition show (v : value) : string :=
  match v with Str s => s | _ => "undefined" end.

End Examples.

(** * Properties *)

(** ** Request validation *)

Lemma check_files_none (fs : list value) :
  forall i, check_files i fs = None <-> forallb has_string_content fs = true.
Proof.
  induction fs as [|file rest IH]; intros i; simpl.
  - tauto.
  - unfold has_string_content.
    destruct (prop file "content") as [content|e]; simpl.
    + destruct content; simpl;
        try (split; intros; (reflexivity || discriminate)).
      apply IH.
    + split; discriminate.
Qed.

Lemma check_memory_limit_none (name : string) (limit : value) (ceiling : Z) :
  check_memory_limit name limit ceiling = None <-> within_ceiling limit ceiling = true.
Proof.
  unfold check_memory_limit, within_ceiling.
  destruct limit;
    try (destruct (truthy _); cbn [negb]; split; intros;
         (reflexivity || discriminate)).
  destruct (truthy (Num n)); cbn [negb orb]; [|tauto].
  rewrite (Z.ltb_antisym 0 ceiling).
  destruct (0 <=? ceiling), (gt n (of_Z ceiling)), (lt n (of_Z 0));
    cbn [andb orb negb]; split; intros; (reflexivity || discriminate).
Qed.

Lemma required_string (v : value) :
  negb (truthy v) || negb (String.eqb (typeof v) "string") = negb (nonempty_string v).
Proof.
  destruct v as [| |b|n|s|l|o]; simpl; try reflexivity.
  - destruct b; reflexivity.
  - destruct n as [q|neg]; simpl; [destruct (Qeq_bool q 0)|]; reflexivity.
  - destruct (String.eqb s ""); reflexivity.
Qed.

Lemma nonempty_string_typeof (v : value) :
  nonempty_string v = true -> String.eqb (typeof v) "string" = true.
Proof.
  destruct v; simpl; try discriminate; reflexivity.
Qed.

Lemma required_array (v : value) :
  negb (truthy v) || negb (isArray v) = negb (isArray v).
Proof.
  destruct v; simpl; try reflexivity; apply orb_true_r.
Qed.

Section GetJobFacts.

Variable config : Config.
Variable lookup : string -> string -> option Runtime.

(** [get_job] returns the job of an accepted request and throws on any
    other. *)
Lemma get_job_cases (body : value) :
  match get_job config lookup body with
  | Ok j => accepts config lookup body = true
            /\ exists rt, runtime_of lookup body = Some rt
                          /\ j = job_of config rt body
  | Throw e => accepts config lookup body = false
  end.
Proof.
  unfold get_job, accepts, well_formed.
  destruct (prop body "language") as [v|e] eqn:P.
  - rewrite required_string, required_string, required_array.
    destruct (nonempty_string (field body "language")); simpl; [|reflexivity].
    destruct (nonempty_string (field body "version")); simpl; [|reflexivity].
    destruct (isArray (field body "files")); simpl; [|reflexivity].
    destruct (check_files 0 (items_of (field body "files"))) as [e|] eqn:F.
    { destruct (forallb _ _) eqn:A; [|reflexivity].
      apply check_files_none with (i := 0%nat) in A. congruence. }
    apply check_files_none in F. rewrite F. simpl.
    destruct (check_memory_limit "compile_memory_limit" _ _) as [e|] eqn:C.
    { destruct (within_ceiling (field body "compile_memory_limit") _) eqn:A;
        [|reflexivity].
      apply (check_memory_limit_none "compile_memory_limit") in A. congruence. }
    apply check_memory_limit_none in C. rewrite C. simpl.
    destruct (check_memory_limit "run_memory_limit" _ _) as [e|] eqn:R.
    { destruct (within_ceiling (field body "run_memory_limit") _) eqn:A;
        [|reflexivity].
      apply (check_memory_limit_none "run_memory_limit") in A. congruence. }
    apply check_memory_limit_none in R. rewrite R. simpl.
    unfold runtime_of.
    destruct (lookup _ _) as [rt|].
    + split; [reflexivity|]. exists rt. split; reflexivity.
    + reflexivity.
  - unfold field. rewrite P. reflexivity.
Qed.

End GetJobFacts.

Section MemoryLimits.

Variable config : Config.
Variable lookup : string -> string -> option Runtime.

Lemma well_formed_object (body : value) :
  well_formed body = true -> exists props, body = Obj props.
Proof.
  destruct body; try discriminate. intros _. eexists; reflexivity.
Qed.

Lemma minus_one_check (name : string) (ceiling : Z) :
  check_memory_limit name (Num (of_Z (-1))) ceiling =
  if ceiling <? 0 then None
  else Some (Rejected (with_message
         (name ++ " cannot exceed the configured limit of " ++ string_of_Z ceiling))).
Proof.
  unfold check_memory_limit.
  change (truthy (Num (of_Z (-1)))) with true. cbv iota.
  change (lt (of_Z (-1)) (of_Z 0)) with true.
  rewrite orb_true_r, andb_true_r, (Z.ltb_antisym 0 ceiling).
  destruct (0 <=? ceiling); reflexivity.
Qed.

(** [get_job] on a well-formed request, from the memory limits on. *)
Lemma get_job_well_formed (body : value) :
  well_formed body = true ->
  get_job config lookup body =
  match check_memory_limit "compile_memory_limit" (field body "compile_memory_limit")
          config.(Api.compile_memory_limit) with
  | Some e => Throw e
  | None =>
    match check_memory_limit "run_memory_limit" (field body "run_memory_limit")
            config.(Api.run_memory_limit) with
    | Some e => Throw e
    | None =>
      match runtime_of lookup body with
      | None => reject (text_of (field body "language") ++ "-"
                        ++ text_of (field body "version") ++ " runtime is unknown")
      | Some rt => Ok (job_of config rt body)
      end
    end
  end.
Proof.
  intros W. destruct (well_formed_object body W) as [props ->].
  unfold well_formed in W.
  apply andb_prop in W as [W F]. apply andb_prop in W as [W A].
  apply andb_prop in W as [L V].
  unfold get_job.
  change (prop (Obj props) "language") with (@Ok value (assoc "language" props)).
  cbv iota. cbv zeta.
  rewrite !required_string, required_array, L, V, A. cbn [negb].
  apply (check_files_none _ 0%nat) in F. rewrite F.
  reflexivity.
Qed.

End MemoryLimits.

(** ** The claims about [get_job] *)

(** C7, as stated, fails: a request can pass every listed condition
    (both names are strings, the files are an array of string contents,
    a runtime matches) and still be rejected, here because its
    [run_memory_limit] is not a number. *)
Lemma listed_conditions_miss_memory_limits :
  listed_rejection Samples.registry
    (Samples.with_field "run_memory_limit" (Str "lots") Samples.print_two) = false
  /\ get_job Samples.ceilings Samples.registry
       (Samples.with_field "run_memory_limit" (Str "lots") Samples.print_two)
     = reject "if specified, run_memory_limit must be a number".
Proof.
  split; reflexivity.
Qed.

Lemma check_files_complaint (fs : list value) :
  forall i e,
    forallb (fun file => negb (nullish file)) fs = true ->
    check_files i fs = Some e ->
    exists k file content,
      nth_error fs k = Some file
      /\ prop file "content" = Ok content
      /\ typeof content <> "string"
      /\ e = Rejected (with_message
                ("files[" ++ string_of_index (i + k)
                 ++ "].content is required as a string")).
Proof.
  induction fs as [|file rest IH]; intros i e R; cbn [check_files].
  - discriminate.
  - cbn [forallb] in R. apply andb_prop in R as [N R].
    destruct (prop file "content") as [content|t] eqn:P.
    + destruct (String.eqb (typeof content) "string") eqn:T; cbn [negb].
      * intros H. destruct (IH (S i) e R H) as (k & f & c & K & Q & U & E).
        exists (S k), f, c. repeat split; try assumption.
        replace (i + S k)%nat with (S i + k)%nat by lia. exact E.
      * intros H. inversion H. exists 0%nat, file, content.
        rewrite Nat.add_0_r. repeat split; try assumption.
        apply String.eqb_neq. exact T.
    + destruct file; discriminate.
Qed.

Lemma check_memory_limit_complaint (name : string) (limit : value) (ceiling : Z)
    (e : thrown) :
  check_memory_limit name limit ceiling = Some e ->
  truthy limit = true
  /\ ((typeof limit <> "number"
       /\ e = Rejected (with_message ("if specified, " ++ name ++ " must be a number")))
      \/ (exists n, limit = Num n /\ 0 <= ceiling
                    /\ (gt n (of_Z ceiling) = true \/ lt n (of_Z 0) = true)
                    /\ e = Rejected (with_message
                              (name ++ " cannot exceed the configured limit of "
                               ++ string_of_Z ceiling)))).
Proof.
  unfold check_memory_limit.
  destruct (truthy limit) eqn:T; [|discriminate].
  intros H. split; [reflexivity|].
  destruct limit as [| |x|n|x|x|x];
    try (left; inversion H; split; [discriminate | reflexivity]).
  right.
  destruct (0 <=? ceiling) eqn:C; cbn [andb] in H; [|discriminate].
  destruct (gt n (of_Z ceiling) || lt n (of_Z 0)) eqn:G; [|discriminate].
  inversion H. exists n. repeat split.
  - apply Z.leb_le. exact C.
  - apply orb_prop. exact G.
Qed.

(** C7 (amended): every condition the specification lists makes [get_job]
    reject, and so do the conditions it leaves out: an empty [language] or
    [version], and a memory limit that is given and is not a number, or
    that lies above a configured ceiling or below 0.  The rejection is the
    object [{message}] whose message names a condition the request is in:
    that [language], [version] or [files] is required, which file has no
    string content, which limit must be a number or cannot exceed which
    configured limit, or which runtime is unknown.  A request in none of
    these conditions resolves to the job built from the matched runtime.
    This is for a request that is not [null] and has no [null] among its
    files, under ceilings that are safe integers. *)
Theorem get_job_accepts_or_describes
    (config : Config) (lookup : string -> string -> option Runtime) (body : value) :
  safe_ceilings config ->
  readable body = true ->
  (listed_rejection lookup body = true -> accepts config lookup body = false)
  /\ if accepts config lookup body
     then exists rt, runtime_of lookup body = Some rt
                     /\ get_job config lookup body = Ok (job_of config rt body)
                     /\ (job_of config rt body).(runtime) = rt
     else exists m, get_job config lookup body = reject m
                    /\ complaint config lookup body m.
Proof.
  intros _ R. split.
  - unfold listed_rejection, accepts, well_formed.
    destruct (nonempty_string (field body "language")) eqn:L; [|reflexivity].
    destruct (nonempty_string (field body "version")) eqn:V; [|reflexivity].
    rewrite (nonempty_string_typeof _ L), (nonempty_string_typeof _ V).
    destruct (isArray (field body "files")); [|reflexivity].
    destruct (forallb _ _); [|reflexivity].
    destruct (runtime_of lookup body); cbn [negb orb andb]; [discriminate|].
    intros _. apply andb_false_r.
  - pose proof (get_job_cases config lookup body) as H.
    destruct (get_job config lookup body) as [j|e] eqn:G.
    + destruct H as [A [rt [Q ->]]]. rewrite A. exists rt. repeat split. exact Q.
    + rewrite H. clear H.
      unfold readable in R. apply andb_prop in R as [B R].
      unfold get_job in G.
      destruct (prop body "language") as [v|t] eqn:P;
        [|destruct body; discriminate].
      rewrite !required_string, required_array in G.
      destruct (nonempty_string (field body "language")) eqn:L; cbn [negb] in G;
        [|inversion G; eexists; split; [reflexivity | apply no_language; exact L]].
      destruct (nonempty_string (field body "version")) eqn:V; cbn [negb] in G;
        [|inversion G; eexists; split; [reflexivity | apply no_version; exact V]].
      destruct (isArray (field body "files")) eqn:F; cbn [negb] in G;
        [|inversion G; eexists; split; [reflexivity | apply no_files; exact F]].
      destruct (check_files 0 (items_of (field body "files"))) as [e1|] eqn:C.
      { inversion G; subst e1.
        destruct (check_files_complaint _ _ _ R C) as (k & f & c & K & Q & U & ->).
        eexists. split; [reflexivity|]. exact (no_content _ _ _ k f c K Q U). }
      destruct (check_memory_limit "compile_memory_limit" _ _) as [e1|] eqn:M1.
      { inversion G; subst e1.
        apply check_memory_limit_complaint in M1 as [T [[N ->] | (n & E & Z0 & O & ->)]];
          (eexists; split; [reflexivity|]).
        - exact (no_number config lookup body Compile T N).
        - apply (beyond_ceiling config lookup body Compile n E); try assumption.
          rewrite <- E. exact T. }
      destruct (check_memory_limit "run_memory_limit" _ _) as [e1|] eqn:M2.
      { inversion G; subst e1.
        apply check_memory_limit_complaint in M2 as [T [[N ->] | (n & E & Z0 & O & ->)]];
          (eexists; split; [reflexivity|]).
        - exact (no_number config lookup body Run T N).
        - apply (beyond_ceiling config lookup body Run n E); try assumption.
          rewrite <- E. exact T. }
      destruct (lookup (text_of (field body "language"))
                  (text_of (field body "version"))) as [rt|] eqn:Q;
        [discriminate G|].
      inversion G. eexists. split; [reflexivity|].
      apply no_runtime; assumption.
Qed.

Lemma safe_sample_ceilings : safe_ceilings Samples.ceilings.
Proof.
  repeat split; intro H; vm_compute in H; discriminate H.
Defined.

Lemma get_job_accepts_or_describes_witness :
  exists m,
    get_job Samples.ceilings Samples.registry
      (Samples.with_field "run_memory_limit" (Num (of_Z 2000)) Samples.print_two)
    = reject m
    /\ complaint Samples.ceilings Samples.registry
         (Samples.with_field "run_memory_limit" (Num (of_Z 2000)) Samples.print_two)
         m.
Proof.
  apply (proj2 (get_job_accepts_or_describes Samples.ceilings Samples.registry
                  (Samples.with_field "run_memory_limit" (Num (of_Z 2000))
                     Samples.print_two)
                  safe_sample_ceilings eq_refl)).
Defined.

(** C3, as stated, fails: with a run ceiling of 1000 bytes configured, a
    request that is accepted without a limit is rejected once it asks for
    [run_memory_limit = -1]. *)
Lemma minus_one_rejected_under_ceiling :
  get_job Samples.ceilings Samples.registry Samples.print_two
    = Ok (job_of Samples.ceilings Samples.python Samples.print_two)
  /\ get_job Samples.ceilings Samples.registry
       (Samples.with_field "run_memory_limit" Samples.minus_one Samples.print_two)
     = reject "run_memory_limit cannot exceed the configured limit of 1000".
Proof.
  split; reflexivity.
Qed.

(** C3 (amended): a memory limit of [-1] is accepted only when no ceiling
    is configured for that phase (the configured value is negative), and
    the job then runs that phase with the limit [-1]; under a configured
    ceiling ([>= 0]) [get_job] rejects the request, saying that the limit
    cannot exceed the configured one.  Here the request is otherwise in
    order: well formed, for a known runtime, its other limit within its
    ceiling; and the ceiling is a safe integer, so that it is printed in
    the message by its decimal digits. *)
Theorem minus_one_accepted_only_without_ceiling
    (config : Config) (lookup : string -> string -> option Runtime)
    (body : value) (rt : Runtime) (p : phase) :
  safe_integer (ceiling config p) ->
  well_formed body = true ->
  runtime_of lookup body = Some rt ->
  within_ceiling (field body (limit_field (other p))) (ceiling config (other p)) = true ->
  field body (limit_field p) = Num (of_Z (-1)) ->
  if ceiling config p <? 0
  then get_job config lookup body = Ok (job_of config rt body)
       /\ granted (job_of config rt body) p = Num (of_Z (-1))
  else get_job config lookup body
       = reject (limit_field p ++ " cannot exceed the configured limit of "
                 ++ string_of_Z (ceiling config p)).
Proof.
  intros _ W R O L.
  rewrite (get_job_well_formed config lookup body W), R.
  apply check_memory_limit_none with (name := limit_field (other p)) in O.
  destruct p; cbn [limit_field other ceiling granted] in *.
  - rewrite L, minus_one_check.
    destruct (Api.compile_memory_limit config <? 0).
    + rewrite O. split; [reflexivity|].
      unfold job_of; cbn [memory_limits_compile]. rewrite L. reflexivity.
    + reflexivity.
  - rewrite O, L, minus_one_check.
    destruct (Api.run_memory_limit config <? 0).
    + split; [reflexivity|].
      unfold job_of; cbn [memory_limits_run]. rewrite L. reflexivity.
    + reflexivity.
Qed.

Lemma minus_one_accepted_only_without_ceiling_witness :
  get_job Samples.ceilings Samples.registry
    (Samples.with_field "compile_memory_limit" Samples.minus_one Samples.print_two)
  = Ok (job_of Samples.ceilings Samples.python
          (Samples.with_field "compile_memory_limit" Samples.minus_one Samples.print_two))
  /\ granted (job_of Samples.ceilings Samples.python
                (Samples.with_field "compile_memory_limit" Samples.minus_one
                   Samples.print_two)) Compile
     = Num (of_Z (-1)).
Proof.
  apply (minus_one_accepted_only_without_ceiling Samples.ceilings Samples.registry
           (Samples.with_field "compile_memory_limit" Samples.minus_one Samples.print_two)
           Samples.python Compile); try reflexivity.
  exact (proj1 safe_sample_ceilings).
Defined.

(** ** [POST /execute] *)

Section ExecuteFacts.

Variable config : Config.
Variable lookup : string -> string -> option Runtime.
Variable b : behaviour.

(** A request that [get_job] rejects is answered 400 with the rejection,
    and no method of a job is called. *)
Lemma post_execute_validation_error (req : value) (m : machine) (e : thrown) :
  get_job config lookup req = Throw e ->
  post_execute config lookup b req m = (Ok {| status := 400; body := json e |}, m).
Proof.
  intros G. unfold post_execute, try_catch, bind, lift. rewrite G. reflexivity.
Qed.

(** The route when nothing throws: the job is primed, executed and
    cleaned up; one slot is acquired and one released. *)
Lemma post_execute_success (req : value) (j : Job) (m : machine)
    (k : nat) (rest : list nat) (result : value) :
  get_job config lookup req = Ok j ->
  m.(free) = k :: rest ->
  b.(staging) = None ->
  b.(execution) = Ok result ->
  post_execute config lookup b req m =
  (Ok {| status := 200; body := result |},
   {| state := Cleaned; slot := None; free := k :: rest;
      acquired := S m.(acquired); released := S m.(released);
      calls := [Prime; Execute; Cleanup] |}).
Proof.
  intros G F S E.
  unfold post_execute, try_catch, bind, lift, new_job, prime, staged, execute, phases,
    cleanup, called, bind, ret.
  rewrite G. cbn. rewrite F, S. cbn. rewrite E. reflexivity.
Qed.

End ExecuteFacts.

(** C1, on the code: when [execute] throws after [prime] succeeded, the
    route answers from its [catch] block and never calls [cleanup]; the
    job is left holding its slot, one slot acquired and none released. *)
Theorem post_execute_keeps_slot_when_execute_throws
    (config : Config) (lookup : string -> string -> option Runtime) (b : behaviour)
    (req : value) (j : Job) (m : machine) (k : nat) (rest : list nat) (e : thrown) :
  get_job config lookup req = Ok j ->
  m.(free) = k :: rest ->
  b.(staging) = None ->
  b.(execution) = Throw e ->
  post_execute config lookup b req m =
  (Ok {| status := 400; body := json e |},
   {| state := Executing; slot := Some k; free := rest;
      acquired := S m.(acquired); released := m.(released);
      calls := [Prime; Execute] |}).
Proof.
  intros G F S E.
  unfold post_execute, try_catch, bind, lift, new_job, prime, staged, execute, phases,
    cleanup, called, bind, ret.
  rewrite G. cbn. rewrite F, S. cbn. rewrite E. reflexivity.
Qed.

Lemma post_execute_keeps_slot_when_execute_throws_witness :
  post_execute Samples.ceilings Samples.registry Samples.broken_pipe
    Samples.print_two (idle 2) =
  (Ok {| status := 400; body := Obj [] |},
   {| state := Executing; slot := Some 0%nat; free := [1%nat];
      acquired := 1; released := 0; calls := [Prime; Execute] |}).
Proof.
  apply (post_execute_keeps_slot_when_execute_throws
           Samples.ceilings Samples.registry Samples.broken_pipe Samples.print_two
           (job_of Samples.ceilings Samples.python Samples.print_two)
           (idle 2) 0%nat [1%nat] (ErrorObject "Error" "write EPIPE"));
    reflexivity.
Defined.

(** C2, on the code: an error of the engine, be it no free slot, a
    staging failure or an error while the phases run, is answered with
    status 400, like a validation error. *)
Theorem post_execute_answers_400_on_engine_error
    (config : Config) (lookup : string -> string -> option Runtime) (b : behaviour)
    (req : value) (j : Job) (m : machine) :
  get_job config lookup req = Ok j ->
  m.(free) = [] \/ b.(staging) <> None \/ (exists e, b.(execution) = Throw e) ->
  exists r m', post_execute config lookup b req m = (Ok r, m') /\ r.(status) = 400.
Proof.
  intros G H.
  unfold post_execute, try_catch, bind, lift, new_job, prime, staged, execute, phases,
    cleanup, called, bind, ret.
  rewrite G. cbn.
  destruct (free m) as [|k rest] eqn:F.
  - eexists _, _. split; reflexivity.
  - destruct (staging b) as [e|] eqn:S.
    + eexists _, _. split; reflexivity.
    + destruct H as [H | [H | [e H]]]; try congruence.
      cbn. rewrite H. eexists _, _. split; reflexivity.
Qed.

Lemma post_execute_answers_400_on_engine_error_witness :
  exists r m',
    post_execute Samples.ceilings Samples.registry Samples.prints_two
      Samples.print_two (idle 0) = (Ok r, m')
    /\ r.(status) = 400.
Proof.
  apply (post_execute_answers_400_on_engine_error
           Samples.ceilings Samples.registry Samples.prints_two Samples.print_two
           (job_of Samples.ceilings Samples.python Samples.print_two) (idle 0)).
  - reflexivity.
  - left. reflexivity.
Defined.

(** ** The interactive session *)

Lemma includes_In (names : list string) (v : value) :
  includes names v = true <-> exists name, v = Str name /\ In name names.
Proof.
  destruct v as [| | | |s| |]; simpl;
    try (split; [discriminate | intros [name [H _]]; discriminate]).
  rewrite existsb_exists. split.
  - intros [x [I E]]. apply String.eqb_eq in E. subst. exists x. auto.
  - intros [name [E I]]. inversion E; subst. exists name.
    split; [exact I | apply String.eqb_refl].
Qed.

Lemma is_text_eq (v : value) (text : string) :
  is_text v text = true <-> v = Str text.
Proof.
  destruct v; simpl; try (split; discriminate).
  rewrite String.eqb_eq. split; [intros -> | intros H; inversion H]; reflexivity.
Qed.

(** Case analysis on every condition of the goal. *)
Ltac split_ifs :=
  repeat match goal with
         | |- context [if ?c then _ else _] => destruct c
         end.

Section SessionFacts.

Variable config : Config.
Variable lookup : string -> string -> option Runtime.
Variable b : behaviour.

(** What a frame dispatched on its own comes to, case by case. *)
Lemma on_message_flat (s : session) (f : frame) :
  on_message config lookup s f =
  match f with
  | Unparsable m => (s, notify_error (ErrorObject "SyntaxError" m))
  | Parsed msg =>
      match prop msg "type" with
      | Throw e => (s, notify_error e)
      | Ok type =>
          if is_text type "init" then
            match s.(job) with
            | None =>
                match get_job config lookup msg with
                | Throw e => (s, notify_error e)
                | Ok j =>
                    ({| job := Some j; init := AwaitingPrime;
                        engine := snd (called Prime (snd (new_job s.(engine)))) |}, [])
                end
            | Some _ => (s, [Close 4000 "Already Initialized"])
            end
          else if is_text type "data" then
            match s.(job) with
            | Some _ =>
                if is_text (field msg "stream") "stdin"
                then (s, [Emit "stdin" (field msg "data")])
                else (s, [Close 4004 "Can only write to stdin"])
            | None => (s, [Close 4003 "Not yet initialized"])
            end
          else if is_text type "signal" then
            match s.(job) with
            | Some _ =>
                if includes SIGNALS (field msg "signal")
                then (s, [Emit "signal" (field msg "signal")])
                else (s, [Close 4005 "Invalid signal"])
            | None => (s, [Close 4003 "Not yet initialized"])
            end
          else (s, [])
      end
  end.
Proof.
  unfold on_message, receive, resume.
  destruct f as [msg|m]; [|reflexivity].
  destruct (prop msg "type") as [type|e]; [|reflexivity].
  destruct (is_text type "init").
  { destruct (job s); [reflexivity|].
    destruct (get_job config lookup msg); reflexivity. }
  destruct (is_text type "data").
  { destruct (job s); [|reflexivity].
    destruct (is_text (field msg "stream") "stdin"); reflexivity. }
  destruct (is_text type "signal"); [|reflexivity].
  destruct (job s); [|reflexivity].
  destruct (includes SIGNALS (field msg "signal")); reflexivity.
Qed.

(** No handler sets [job] back to [null]. *)
Lemma step_keeps_job (s : session) (e : event) (j : Job) :
  s.(job) = Some j -> (fst (step config lookup b s e)).(job) = Some j.
Proof.
  intros J. destruct e as [f| | |p| |]; simpl.
  - rewrite on_message_flat. destruct f as [msg|m]; [|exact J].
    destruct (prop msg "type") as [type|e]; [|exact J].
    rewrite J. split_ifs; exact J.
  - unfold on_prime_settled. rewrite J.
    destruct (init s); try exact J.
    destruct (staged b (engine s)) as [[u|e] m]; reflexivity.
  - unfold on_execute_settled.
    destruct (init s); try exact J.
    destruct (phases b (engine s)) as [[u|e] m]; exact J.
  - exact J.
  - unfold on_close. rewrite J. reflexivity.
  - unfold on_timeout. rewrite J. exact J.
Qed.

(** Without a job, only an accepted [init] frame creates one. *)
Lemma step_without_job (s : session) (e : event) :
  s.(job) = None ->
  (fst (step config lookup b s e)).(job) = None <-> creates_job config lookup e = false.
Proof.
  intros J. destruct e as [f| | |p| |]; simpl;
    try (split; [reflexivity | intros _]).
  - rewrite on_message_flat. destruct f as [msg|m]; [|split; auto].
    destruct (prop msg "type") as [type|e]; [|split; auto].
    rewrite J.
    destruct (is_text type "init"); cbn [andb].
    + destruct (get_job config lookup msg); simpl; split; intros H;
        first [discriminate H | assumption | reflexivity].
    + split_ifs; split; auto.
  - unfold on_prime_settled. rewrite J. destruct (init s); exact J.
  - unfold on_execute_settled. destruct (init s); try exact J.
    destruct (phases b (engine s)) as [[u|e] m]; exact J.
  - exact J.
  - unfold on_close. rewrite J. exact J.
  - unfold on_timeout. rewrite J. exact J.
Qed.

Lemma run_job_none (es : list event) :
  forall s,
    (fst (run config lookup b s es)).(job) = None
    <-> s.(job) = None /\ existsb (creates_job config lookup) es = false.
Proof.
  induction es as [|e rest IH]; intros s; simpl.
  - tauto.
  - destruct (step config lookup b s e) as [s1 out1] eqn:S.
    destruct (run config lookup b s1 rest) as [s2 out2] eqn:R.
    simpl. specialize (IH s1). rewrite R in IH. simpl in IH. rewrite IH.
    assert (s1 = fst (step config lookup b s e)) as -> by (rewrite S; reflexivity).
    rewrite orb_false_iff.
    destruct (job s) as [j|] eqn:J.
    + rewrite (step_keeps_job s e j J). split; intros [H _]; discriminate.
    + rewrite (step_without_job s e J). tauto.
Qed.

End SessionFacts.

(** C4: on a session with a job, a [signal] message is emitted on the
    bus's [signal] topic exactly when its name is on the allow-list; with
    any other name, or a value that is no string, the session is closed
    with code 4005 and nothing is emitted.  Either way the session's
    state stays as it was. *)
Theorem signal_forwarded_iff_allowed
    (config : Config) (lookup : string -> string -> option Runtime)
    (s : session) (j : Job) (msg : value) :
  s.(job) = Some j ->
  prop msg "type" = Ok (Str "signal") ->
  exists out,
    on_message config lookup s (Parsed msg) = (s, out)
    /\ (((exists name, field msg "signal" = Str name /\ In name SIGNALS)
         /\ out = [Emit "signal" (field msg "signal")])
        \/ (~ (exists name, field msg "signal" = Str name /\ In name SIGNALS)
            /\ out = [Close 4005 "Invalid signal"])).
Proof.
  intros J T. rewrite on_message_flat. rewrite T, J.
  change (is_text (Str "signal") "init") with false.
  change (is_text (Str "signal") "data") with false.
  change (is_text (Str "signal") "signal") with true.
  cbv iota.
  destruct (includes SIGNALS (field msg "signal")) eqn:I.
  - eexists. split; [reflexivity|]. left. split; [|reflexivity].
    apply includes_In. exact I.
  - eexists. split; [reflexivity|]. right. split; [|reflexivity].
    intros H. apply includes_In in H. congruence.
Qed.

Lemma signal_forwarded_iff_allowed_witness :
  exists out,
    on_message Samples.ceilings Samples.registry Samples.running
      (Parsed Samples.terminate) = (Samples.running, out)
    /\ (((exists name, field Samples.terminate "signal" = Str name /\ In name SIGNALS)
         /\ out = [Emit "signal" (field Samples.terminate "signal")])
        \/ (~ (exists name, field Samples.terminate "signal" = Str name
                            /\ In name SIGNALS)
            /\ out = [Close 4005 "Invalid signal"])).
Proof.
  apply (signal_forwarded_iff_allowed Samples.ceilings Samples.registry Samples.running
           (job_of Samples.ceilings Samples.python Samples.print_two) Samples.terminate);
    reflexivity.
Defined.

(** C5: a connection starts without a job and with one timer, of 1000
    milliseconds.  Whatever happened before the timer fires, if no [init]
    frame has created a job by then (none was accepted by [get_job]) the
    callback closes the session with code 4001; if a job has been created
    the callback does nothing. *)
Theorem init_timeout_closes_only_without_job
    (config : Config) (lookup : string -> string -> option Runtime) (b : behaviour)
    (m : machine) (before : list event) :
  snd (connect m) = [(1000, TimerFired)]
  /\ (fst (connect m)).(job) = None
  /\ ((existsb (creates_job config lookup) before = false
       /\ step config lookup b (fst (run config lookup b (fst (connect m)) before))
            TimerFired
          = (fst (run config lookup b (fst (connect m)) before),
             [Close 4001 "Initialization Timeout"]))
      \/ (existsb (creates_job config lookup) before = true
          /\ step config lookup b (fst (run config lookup b (fst (connect m)) before))
               TimerFired
             = (fst (run config lookup b (fst (connect m)) before), []))).
Proof.
  split; [reflexivity|]. split; [reflexivity|].
  pose proof (run_job_none config lookup b before (fst (connect m))) as R.
  cbn [step]. unfold on_timeout.
  destruct (job (fst (run config lookup b (fst (connect m)) before))) as [j|].
  - right. split; [|reflexivity].
    destruct (existsb (creates_job config lookup) before); [reflexivity|].
    assert (Some j = @None Job) as H by (apply R; split; reflexivity).
    discriminate H.
  - left. split; [|reflexivity]. apply R. reflexivity.
Qed.

(** C6: a [data] message on a session with a job is published on the
    bus's [stdin] topic when its [stream] is ["stdin"], and closes the
    session with code 4004 for any other [stream]; a [data] or [signal]
    message on a session without a job closes it with code 4003. *)
Theorem data_and_signal_dispatch
    (config : Config) (lookup : string -> string -> option Runtime)
    (s : session) (msg : value) :
  prop msg "type" = Ok (Str "data") \/ prop msg "type" = Ok (Str "signal") ->
  exists out,
    on_message config lookup s (Parsed msg) = (s, out)
    /\ ((s.(job) = None /\ out = [Close 4003 "Not yet initialized"])
        \/ (s.(job) <> None /\ prop msg "type" = Ok (Str "data")
            /\ field msg "stream" = Str "stdin"
            /\ out = [Emit "stdin" (field msg "data")])
        \/ (s.(job) <> None /\ prop msg "type" = Ok (Str "data")
            /\ field msg "stream" <> Str "stdin"
            /\ out = [Close 4004 "Can only write to stdin"])
        \/ (s.(job) <> None /\ prop msg "type" = Ok (Str "signal"))).
Proof.
  intros [T|T]; rewrite on_message_flat; rewrite T.
  - change (is_text (Str "data") "init") with false.
    change (is_text (Str "data") "data") with true.
    cbv iota.
    destruct (job s) as [j|].
    + destruct (is_text (field msg "stream") "stdin") eqn:S;
        eexists; (split; [reflexivity|]); right.
      * left. repeat split; [discriminate | apply is_text_eq; exact S].
      * right. left. repeat split; [discriminate|].
        intros H. apply is_text_eq in H. congruence.
    + eexists. split; [reflexivity|]. left. split; reflexivity.
  - change (is_text (Str "signal") "init") with false.
    change (is_text (Str "signal") "data") with false.
    change (is_text (Str "signal") "signal") with true.
    cbv iota.
    destruct (job s) as [j|].
    + destruct (includes SIGNALS (field msg "signal"));
        eexists; (split; [reflexivity|]); right; right; right;
        (split; [discriminate | reflexivity]).
    + eexists. split; [reflexivity|]. left. split; reflexivity.
Qed.

Lemma data_and_signal_dispatch_witness :
  exists out,
    on_message Samples.ceilings Samples.registry Samples.running (Parsed Samples.hello)
      = (Samples.running, out)
    /\ ((Samples.running.(job) = None /\ out = [Close 4003 "Not yet initialized"])
        \/ (Samples.running.(job) <> None /\ prop Samples.hello "type" = Ok (Str "data")
            /\ field Samples.hello "stream" = Str "stdin"
            /\ out = [Emit "stdin" (field Samples.hello "data")])
        \/ (Samples.running.(job) <> None /\ prop Samples.hello "type" = Ok (Str "data")
            /\ field Samples.hello "stream" <> Str "stdin"
            /\ out = [Close 4004 "Can only write to stdin"])
        \/ (Samples.running.(job) <> None
            /\ prop Samples.hello "type" = Ok (Str "signal"))).
Proof.
  apply (data_and_signal_dispatch Samples.ceilings Samples.registry Samples.running
           Samples.hello).
  left. reflexivity.
Defined.

(** C9: when the socket closes on a session whose job was created, the
    handler calls the job's [cleanup]: whatever state the job was in, also
    in the middle of a phase, it ends Cleaned, without a slot, the slot it
    held back among the free ones; nothing is sent.  On a session without
    a job the handler calls nothing. *)
Theorem close_cleans_up_the_job
    (config : Config) (lookup : string -> string -> option Runtime) (b : behaviour)
    (s : session) :
  match s.(job) with
  | Some _ =>
      exists m,
        step config lookup b s SocketClosed
          = ({| job := s.(job); init := s.(init); engine := m |}, [])
        /\ m.(calls) = (s.(engine).(calls) ++ [Cleanup])%list
        /\ m.(state) = Cleaned
        /\ m.(slot) = None
        /\ m.(free) = (match s.(engine).(slot) with
                       | Some k => [k]
                       | None => []
                       end ++ s.(engine).(free))%list
        /\ m.(acquired) = s.(engine).(acquired)
  | None => step config lookup b s SocketClosed = (s, [])
  end.
Proof.
  cbn [step]. unfold on_close.
  destruct (job s) as [j|]; [|reflexivity].
  unfold cleanup, called, bind. cbn.
  destruct (slot (engine s)) as [k|]; eexists; repeat split.
Qed.

(** ** The mono compile script *)

Import Mono.










Lemma read_write (name text : string) (d : dir) :
  read name (write name text d) = Some text.
Proof.
  induction d as [|[n t] rest IH]; simpl.
  - rewrite String.eqb_refl. reflexivity.
  - destruct (String.eqb name n) eqn:E; simpl; rewrite E; [reflexivity | exact IH].
Qed.

(** [check_errors] when [check.txt] is there: its text goes to one of
    the two streams, the file is removed, and the status is 0. *)
Lemma check_errors_with_file (p : process) (text : string) :
  read "check.txt" p.(cwd) = Some text ->
  check_errors p =
  ({| cwd := remove "check.txt" p.(cwd);
      stdout := if grep_error text then p.(stdout) else p.(stdout) ++ text;
      stderr := if grep_error text then p.(stderr) ++ text else p.(stderr);
      ran := p.(ran) |}, 0).
Proof.
  intros H. unfold check_errors, grep_q, cat, rm. rewrite H.
  destruct (grep_error text); cbn; rewrite H; cbn; rewrite H; reflexivity.
Qed.

(** One of the two compiling branches, with its pattern, its compiler
    and its suffix. *)
Lemma branch_result (t : tools) (name : string)
    (tool : list string -> dir -> tool_result) (expr suffix : string)
    (args : list string) (d : dir) :
  (let (p1, _) := run_tool "rename" t.(rename) (expr :: args) None (start d) in
   let (p2, _) := run_tool name tool ("-out:out" :: expand suffix p1.(cwd))
                    (Some "check.txt") p1 in
   check_errors p2)
  = let renamed := t.(rename) (expr :: args) d in
    let compiled := tool ("-out:out" :: expand suffix renamed.(after)) renamed.(after) in
    ({| cwd := remove "check.txt" (write "check.txt" compiled.(out) compiled.(after));
        stdout := if grep_error compiled.(out) then renamed.(out)
                  else renamed.(out) ++ compiled.(out);
        stderr := if grep_error compiled.(out)
                  then (renamed.(err) ++ compiled.(err)) ++ compiled.(out)
                  else renamed.(err) ++ compiled.(err);
        ran := [("rename", expr :: args);
                (name, "-out:out" :: expand suffix renamed.(after))] |}, 0).
Proof.
  unfold run_tool, start. cbn [cwd stdout stderr ran].
  cbv zeta.
  erewrite check_errors_with_file; [reflexivity|].
  cbn [cwd]. apply read_write.
Qed.




(** * Further properties *)

(** ** More about [get_job] *)

Lemma check_files_first_bad (good : list value) :
  forall (i : nat) (bad : value) (rest : list value) (content : value),
    forallb has_string_content good = true ->
    prop bad "content" = Ok content ->
    String.eqb (typeof content) "string" = false ->
    check_files i (good ++ bad :: rest) =
    Some (Rejected (with_message
            ("files[" ++ string_of_index (i + length good)
             ++ "].content is required as a string"))).
Proof.
  induction good as [|file good IH]; intros i bad rest content G P T.
  - simpl. rewrite P, T. simpl. rewrite Nat.add_0_r. reflexivity.
  - simpl in G. apply andb_prop in G as [F G].
    unfold has_string_content in F. cbn [app check_files].
    destruct (prop file "content") as [[| | | |text| |]|e]; try discriminate F.
    cbn [typeof]. change (String.eqb "string" "string") with true. cbn [negb].
    rewrite (IH (S i) bad rest content G P T).
    replace (S i + length good)%nat with (i + length (file :: good))%nat
      by (simpl; lia).
    reflexivity.
Qed.

Lemma check_files_null (good : list value) :
  forall (i : nat) (rest : list value),
    forallb has_string_content good = true ->
    check_files i (good ++ Null :: rest) =
    Some (ErrorObject "TypeError" "Cannot read properties of null (reading 'content')").
Proof.
  induction good as [|file good IH]; intros i rest G.
  - reflexivity.
  - simpl in G. apply andb_prop in G as [F G].
    unfold has_string_content in F. cbn [app check_files].
    destruct (prop file "content") as [[| | | |text| |]|e]; try discriminate F.
    cbn [typeof]. change (String.eqb "string" "string") with true. cbn [negb].
    apply IH. exact G.
Qed.

(** [get_job] stops at the first file it cannot take. *)
Lemma get_job_bad_files (config : Config) (lookup : string -> string -> option Runtime)
    (props : list (string * value)) (fs : list value) (e : thrown) :
  nonempty_string (assoc "language" props) = true ->
  nonempty_string (assoc "version" props) = true ->
  assoc "files" props = Arr fs ->
  check_files 0 fs = Some e ->
  get_job config lookup (Obj props) = Throw e.
Proof.
  intros L V F C. unfold get_job.
  change (prop (Obj props) "language") with (@Ok value (assoc "language" props)).
  cbv iota. cbv zeta.
  rewrite !required_string, required_array.
  change (field (Obj props) "language") with (assoc "language" props).
  change (field (Obj props) "version") with (assoc "version" props).
  change (field (Obj props) "files") with (assoc "files" props).
  rewrite L, V, F. cbn [negb isArray items_of]. rewrite C. reflexivity.
Qed.

(** X1: when the names are in order and the files are an array, the
    message of [get_job] names the first file whose [content] is not a
    string, by its index, whatever the memory limits are and whether or
    not a runtime matches. *)
Theorem get_job_names_first_bad_file
    (config : Config) (lookup : string -> string -> option Runtime)
    (props : list (string * value)) (good rest : list value) (bad content : value) :
  nonempty_string (assoc "language" props) = true ->
  nonempty_string (assoc "version" props) = true ->
  assoc "files" props = Arr (good ++ bad :: rest) ->
  forallb has_string_content good = true ->
  prop bad "content" = Ok content ->
  typeof content <> "string" ->
  get_job config lookup (Obj props) =
  reject ("files[" ++ string_of_index (length good)
          ++ "].content is required as a string").
Proof.
  intros L V F G P T.
  apply (get_job_bad_files config lookup props (good ++ bad :: rest)); try assumption.
  apply String.eqb_neq in T.
  exact (check_files_first_bad good 0 bad rest content G P T).
Qed.

(** X2: a [null] among the files, after files that are in order, makes
    [get_job] throw a [TypeError]; [POST /execute] answers it with status
    400 and the empty object, the message being lost, and calls nothing on
    a job. *)
Theorem null_file_answers_empty_object
    (config : Config) (lookup : string -> string -> option Runtime) (b : behaviour)
    (props : list (string * value)) (good rest : list value) (m : machine) :
  nonempty_string (assoc "language" props) = true ->
  nonempty_string (assoc "version" props) = true ->
  assoc "files" props = Arr (good ++ Null :: rest) ->
  forallb has_string_content good = true ->
  get_job config lookup (Obj props) =
    Throw (ErrorObject "TypeError" "Cannot read properties of null (reading 'content')")
  /\ post_execute config lookup b (Obj props) m =
     (Ok {| status := 400; body := Obj [] |}, m).
Proof.
  intros L V F G.
  assert (get_job config lookup (Obj props) =
          Throw (ErrorObject "TypeError"
                   "Cannot read properties of null (reading 'content')")) as E.
  { apply (get_job_bad_files config lookup props (good ++ Null :: rest));
      try assumption.
    apply check_files_null. exact G. }
  split; [exact E|].
  rewrite (post_execute_validation_error config lookup b _ m _ E). reflexivity.
Qed.

Lemma get_job_names_first_bad_file_witness :
  get_job Samples.ceilings Samples.registry (Obj Examples.second_file_bad) =
  reject "files[1].content is required as a string".
Proof.
  apply (get_job_names_first_bad_file Samples.ceilings Samples.registry
           Examples.second_file_bad
           [Obj [("content", Str "print(1+1)")]] []
           (Obj [("name", Str "data.txt"); ("content", Num (of_Z 7))])
           (Num (of_Z 7)));
    try reflexivity.
  discriminate.
Defined.

Lemma null_file_answers_empty_object_witness :
  get_job Samples.ceilings Samples.registry (Obj Examples.second_file_null) =
    Throw (ErrorObject "TypeError" "Cannot read properties of null (reading 'content')")
  /\ post_execute Samples.ceilings Samples.registry Samples.prints_two
       (Obj Examples.second_file_null) (idle 2) =
     (Ok {| status := 400; body := Obj [] |}, idle 2).
Proof.
  apply (null_file_answers_empty_object Samples.ceilings Samples.registry
           Samples.prints_two Examples.second_file_null
           [Obj [("content", Str "print(1+1)")]] [] (idle 2));
    reflexivity.
Defined.

Lemma compare_of_Z (a b : Z) : (inject_Z a ?= inject_Z b)%Q = (a ?= b)%Z.
Proof.
  unfold Qcompare. simpl. rewrite !Z.mul_1_r. reflexivity.
Qed.

Lemma gt_of_Z (a b : Z) : gt (of_Z a) (of_Z b) = (b <? a).
Proof.
  unfold gt, of_Z. rewrite compare_of_Z. unfold Z.ltb.
  rewrite (Z.compare_antisym a b).
  destruct (a ?= b)%Z; reflexivity.
Qed.

(** X3: the memory limit of a job never leaves the configured ceiling:
    when a ceiling is configured for a phase (a value [>= 0]), the limit
    of every job [get_job] returns is, for that phase, a number that is
    neither above the ceiling nor negative. *)
Theorem job_limit_within_ceiling
    (config : Config) (lookup : string -> string -> option Runtime)
    (body : value) (j : Job) (p : phase) :
  get_job config lookup body = Ok j ->
  0 <= ceiling config p ->
  exists n, granted j p = Num n
            /\ gt n (of_Z (ceiling config p)) = false
            /\ lt n (of_Z 0) = false.
Proof.
  intros G C.
  pose proof (get_job_cases config lookup body) as H. rewrite G in H.
  destruct H as [A [rt [_ ->]]].
  unfold accepts in A.
  apply andb_prop in A as [A _]. apply andb_prop in A as [A R].
  apply andb_prop in A as [_ K].
  assert (forall limit c, 0 <= c -> within_ceiling limit c = true ->
            exists n, or limit (Num (of_Z c)) = Num n
                      /\ gt n (of_Z c) = false /\ lt n (of_Z 0) = false) as W.
  { intros limit c P. unfold within_ceiling, or.
    assert (gt (of_Z c) (of_Z c) = false /\ lt (of_Z c) (of_Z 0) = false) as [D1 D2].
    { unfold lt. rewrite !gt_of_Z. split; apply Z.ltb_ge; lia. }
    destruct limit as [| |x|n|x|x|x];
      try (destruct (truthy _); [discriminate | intros _; eauto]).
    destruct (truthy (Num n)); cbn [negb orb]; [|intros _; eauto].
    replace (c <? 0) with false by (symmetry; apply Z.ltb_ge; exact P).
    cbn [orb]. intros H. apply andb_prop in H as [H1 H2].
    exists n. repeat split;
      [destruct (gt n (of_Z c)) | destruct (lt n (of_Z 0))];
      (reflexivity || discriminate). }
  destruct p; cbn [ceiling granted job_of memory_limits_compile memory_limits_run] in *.
  - apply W; assumption.
  - apply W; assumption.
Qed.

Lemma job_limit_within_ceiling_witness :
  exists n, granted (job_of Samples.ceilings Samples.python Examples.modest) Run = Num n
            /\ gt n (of_Z (ceiling Samples.ceilings Run)) = false
            /\ lt n (of_Z 0) = false.
Proof.
  apply (job_limit_within_ceiling Samples.ceilings Samples.registry Examples.modest
           (job_of Samples.ceilings Samples.python Examples.modest) Run).
  - reflexivity.
  - cbn. lia.
Defined.

(** X4: every job [get_job] returns is in order: its alias is a
    non-empty string, its files are an array whose items each have a
    string content, and its arguments and both timeouts are set (a
    request's [0], [""] or [null] there is replaced by the default). *)
Theorem job_is_in_order
    (config : Config) (lookup : string -> string -> option Runtime)
    (body : value) (j : Job) :
  get_job config lookup body = Ok j ->
  nonempty_string j.(alias) = true
  /\ isArray j.(files) = true
  /\ forallb has_string_content (items_of j.(files)) = true
  /\ truthy j.(args) = true
  /\ truthy j.(timeouts_run) = true
  /\ truthy j.(timeouts_compile) = true.
Proof.
  intros G.
  pose proof (get_job_cases config lookup body) as H. rewrite G in H.
  destruct H as [A [rt [_ ->]]].
  unfold accepts, well_formed in A.
  repeat (apply andb_prop in A as [A ?]).
  assert (forall a d, truthy d = true -> truthy (or a d) = true) as T.
  { intros a d D. unfold or. destruct (truthy a) eqn:E; assumption. }
  cbn [job_of alias files args timeouts_run timeouts_compile].
  repeat split; try assumption; apply T; reflexivity.
Qed.

Lemma job_is_in_order_witness :
  nonempty_string (job_of Samples.ceilings Samples.python Examples.modest).(alias) = true
  /\ isArray (job_of Samples.ceilings Samples.python Examples.modest).(files) = true
  /\ forallb has_string_content
       (items_of (job_of Samples.ceilings Samples.python Examples.modest).(files)) = true
  /\ truthy (job_of Samples.ceilings Samples.python Examples.modest).(args) = true
  /\ truthy (job_of Samples.ceilings Samples.python Examples.modest).(timeouts_run) = true
  /\ truthy (job_of Samples.ceilings Samples.python Examples.modest).(timeouts_compile)
     = true.
Proof.
  apply (job_is_in_order Samples.ceilings Samples.registry Examples.modest).
  reflexivity.
Defined.

(** ** The content-type guard *)

Lemma prefix_app (p s : string) :
  String.prefix p s = true <-> exists rest, s = (p ++ rest)%string.
Proof.
  revert s. induction p as [|a p IH]; intros s.
  - split; [intros _; exists s; reflexivity | intros _; destruct s; reflexivity].
  - destruct s as [|c s].
    + split; [discriminate | intros [rest H]; discriminate H].
    + cbn [String.prefix append].
      destruct (ascii_dec a c) as [->|N].
      * split.
        -- intros H. apply IH in H as [rest ->]. exists rest. reflexivity.
        -- intros [rest H]. inversion H. apply IH. exists rest. reflexivity.
      * split; [discriminate | intros [rest H]; inversion H; congruence].
Qed.

Lemma existsb_eqb_In (x : string) (l : list string) :
  existsb (String.eqb x) l = true <-> In x l.
Proof.
  rewrite existsb_exists. split.
  - intros [y [I E]]. apply String.eqb_eq in E. subst. exact I.
  - intros I. exists x. split; [exact I | apply String.eqb_refl].
Qed.

(** X5: the guard lets a request through exactly when its method is
    GET, HEAD or OPTIONS or its content type starts with
    [application/json]; it answers 415 exactly when another method comes
    with a content type that does not start so; and it throws a
    [TypeError], answering nothing, exactly when another method comes
    without any content type. *)
Theorem guard_verdicts (method : string) (content_type : option string) :
  match Guard.content_type_guard method content_type with
  | Ok Guard.Next =>
      In method ["GET"; "HEAD"; "OPTIONS"]
      \/ exists rest, content_type = Some ("application/json" ++ rest)
  | Ok (Guard.Answer r) =>
      ~ In method ["GET"; "HEAD"; "OPTIONS"]
      /\ r = {| status := 415;
                body := with_message "requests must be of type application/json" |}
      /\ exists header, content_type = Some header
                        /\ forall rest, header <> "application/json" ++ rest
  | Throw e =>
      ~ In method ["GET"; "HEAD"; "OPTIONS"]
      /\ content_type = None
      /\ exists text, e = ErrorObject "TypeError" text
  end.
Proof.
  unfold Guard.content_type_guard.
  destruct (existsb (String.eqb method) ["GET"; "HEAD"; "OPTIONS"]) eqn:S.
  - left. apply existsb_eqb_In. exact S.
  - assert (~ In method ["GET"; "HEAD"; "OPTIONS"]) as N.
    { intros I. apply existsb_eqb_In in I. congruence. }
    destruct content_type as [header|].
    + destruct (String.prefix "application/json" header) eqn:P; cbn [negb].
      * right. apply prefix_app in P as [rest ->]. exists rest. reflexivity.
      * split; [exact N|]. split; [reflexivity|].
        exists header. split; [reflexivity|].
        intros rest E.
        assert (String.prefix "application/json" header = true) as Q
            by (apply prefix_app; exists rest; exact E).
        congruence.
    + split; [exact N|]. split; [reflexivity|]. eexists. reflexivity.
Qed.

(** ** More about [POST /execute] *)

(** X6: the route always answers, with status 200 or 400.  It answers
    200, with what [execute] returned, exactly when the request is
    accepted, a slot is free, staging succeeds and the phases return; the
    job has then been primed, executed and cleaned up, in this order, and
    holds no slot.  In every other case it answers 400. *)
Theorem post_execute_answers_200_or_400
    (config : Config) (lookup : string -> string -> option Runtime) (b : behaviour)
    (req : value) (m : machine) :
  exists r m',
    post_execute config lookup b req m = (Ok r, m')
    /\ ((r.(status) = 200
         /\ (exists j, get_job config lookup req = Ok j)
         /\ m.(free) <> [] /\ b.(staging) = None
         /\ b.(execution) = Ok r.(body)
         /\ m'.(calls) = [Prime; Execute; Cleanup]
         /\ m'.(state) = Cleaned /\ m'.(slot) = None /\ m'.(free) = m.(free))
        \/ (r.(status) = 400
            /\ ((exists e, get_job config lookup req = Throw e)
                \/ m.(free) = [] \/ b.(staging) <> None
                \/ exists e, b.(execution) = Throw e))).
Proof.
  unfold post_execute, try_catch, bind, lift, new_job, prime, staged, execute, phases,
    cleanup, called, bind, ret.
  destruct (get_job config lookup req) as [j|e] eqn:G.
  - cbn. destruct (free m) as [|k rest] eqn:F.
    + eexists _, _. split; [reflexivity|]. right. split; [reflexivity|]. auto.
    + destruct (staging b) as [e|] eqn:S.
      * eexists _, _. split; [reflexivity|]. right. split; [reflexivity|].
        right. right. left. discriminate.
      * cbn. destruct (execution b) as [result|e] eqn:E.
        -- eexists _, _. split; [reflexivity|]. left. cbn.
           repeat split; try reflexivity; [exists j; reflexivity | discriminate].
        -- eexists _, _. split; [reflexivity|]. right. split; [reflexivity|].
           right. right. right. exists e. reflexivity.
  - eexists _, _. split; [reflexivity|]. right. split; [reflexivity|].
    left. exists e. reflexivity.
Qed.

(** ** More about the interactive session *)

Section SessionRuns.

Variable config : Config.
Variable lookup : string -> string -> option Runtime.
Variable b : behaviour.

Lemma run_app (es1 es2 : list event) :
  forall s,
    run config lookup b s (es1 ++ es2) =
    (fst (run config lookup b (fst (run config lookup b s es1)) es2),
     (snd (run config lookup b s es1)
      ++ snd (run config lookup b (fst (run config lookup b s es1)) es2))%list).
Proof.
  induction es1 as [|e es1 IH]; intros s; cbn [run app fst snd].
  - destruct (run config lookup b s es2); reflexivity.
  - destruct (step config lookup b s e) as [s1 out1].
    rewrite (IH s1).
    destruct (run config lookup b s1 es1) as [s2 out2]. cbn [fst snd].
    destruct (run config lookup b s2 es2) as [s3 out3]. cbn [fst snd].
    rewrite app_assoc. reflexivity.
Qed.

Lemma notify_error_permitted (e : thrown) :
  forallb Trace.permitted (notify_error e) = true.
Proof.
  unfold notify_error. destruct (message_of e); reflexivity.
Qed.

Lemma notify_error_silent (e : thrown) :
  forallb (fun x => negb (Trace.is_emit x)) (notify_error e) = true.
Proof.
  unfold notify_error. destruct (message_of e); reflexivity.
Qed.

Lemma step_permitted (s : session) (e : event) :
  forallb Trace.permitted (snd (step config lookup b s e)) = true.
Proof.
  destruct e as [f| | |p| |]; cbn [step].
  - rewrite on_message_flat. destruct f as [msg|m];
      [|apply notify_error_permitted].
    destruct (prop msg "type") as [type|e]; [|apply notify_error_permitted].
    destruct (is_text type "init").
    { destruct (job s); [reflexivity|].
      destruct (get_job config lookup msg);
        [reflexivity | apply notify_error_permitted]. }
    destruct (is_text type "data").
    { destruct (job s); [|reflexivity].
      destruct (is_text (field msg "stream") "stdin"); reflexivity. }
    destruct (is_text type "signal"); [|reflexivity].
    destruct (job s); [|reflexivity].
    destruct (includes SIGNALS (field msg "signal")) eqn:I; [|reflexivity].
    cbn [snd forallb Trace.permitted]. rewrite I. reflexivity.
  - unfold on_prime_settled.
    destruct (init s), (job s); try reflexivity.
    destruct (staged b (engine s)) as [[u|e] m];
      [reflexivity | apply notify_error_permitted].
  - unfold on_execute_settled.
    destruct (init s); try reflexivity.
    destruct (phases b (engine s)) as [[u|e] m];
      [reflexivity | apply notify_error_permitted].
  - destruct p; reflexivity.
  - unfold on_close. destruct (job s); reflexivity.
  - unfold on_timeout. destruct (job s); reflexivity.
Qed.

Lemma step_silent_without_job (s : session) (e : event) :
  s.(job) = None ->
  forallb (fun x => negb (Trace.is_emit x)) (snd (step config lookup b s e)) = true.
Proof.
  intros J. destruct e as [f| | |p| |]; cbn [step].
  - rewrite on_message_flat. destruct f as [msg|m];
      [|apply notify_error_silent].
    destruct (prop msg "type") as [type|e]; [|apply notify_error_silent].
    rewrite J.
    destruct (is_text type "init").
    { destruct (get_job config lookup msg);
        [reflexivity | apply notify_error_silent]. }
    destruct (is_text type "data"); [reflexivity|].
    destruct (is_text type "signal"); reflexivity.
  - unfold on_prime_settled. rewrite J. destruct (init s); reflexivity.
  - unfold on_execute_settled.
    destruct (init s); try reflexivity.
    destruct (phases b (engine s)) as [[u|e] m];
      [reflexivity | apply notify_error_silent].
  - destruct p; reflexivity.
  - unfold on_close. rewrite J. reflexivity.
  - unfold on_timeout. rewrite J. reflexivity.
Qed.

End SessionRuns.

(** X7: once the variable [job] holds a job it is never [null] again,
    whatever happens on the session afterwards: nothing assigns [null] to
    it. *)
Theorem job_is_never_null_again
    (config : Config) (lookup : string -> string -> option Runtime) (b : behaviour)
    (es : list event) (s : session) :
  s.(job) <> None ->
  (fst (run config lookup b s es)).(job) <> None.
Proof.
  revert s. induction es as [|e es IH]; intros s J; cbn [run].
  - exact J.
  - destruct (job s) as [j|] eqn:K; [|congruence].
    pose proof (step_keeps_job config lookup b s e j K) as H.
    destruct (step config lookup b s e) as [s1 out1]. cbn [fst] in H.
    assert (job s1 <> None) as N by (rewrite H; discriminate).
    specialize (IH s1 N).
    destruct (run config lookup b s1 es) as [s2 out2]. exact IH.
Qed.

Lemma job_is_never_null_again_witness :
  (fst (run Samples.ceilings Samples.registry Samples.prints_two Samples.running
          [Message (Parsed Examples.init_frame); ExecuteSettled; SocketClosed;
           TimerFired])).(job)
  <> None.
Proof.
  apply (job_is_never_null_again Samples.ceilings Samples.registry Samples.prints_two
           [Message (Parsed Examples.init_frame); ExecuteSettled; SocketClosed;
            TimerFired]
           Samples.running).
  discriminate.
Defined.

(** X8: whatever happens on a session, in any order, everything it does
    is of these kinds: a message sent to the client, a close with one of
    the codes 4000 to 4005 or 4999, the client's data emitted on the bus's
    [stdin] topic, or a name of the allow-list emitted on its [signal]
    topic.  In particular no other signal name ever reaches the job. *)
Theorem session_does_only_what_is_permitted
    (config : Config) (lookup : string -> string -> option Runtime) (b : behaviour)
    (es : list event) (s : session) :
  forallb Trace.permitted (snd (run config lookup b s es)) = true.
Proof.
  revert s. induction es as [|e es IH]; intros s; cbn [run].
  - reflexivity.
  - pose proof (step_permitted config lookup b s e) as P.
    destruct (step config lookup b s e) as [s1 out1]. cbn [snd] in P.
    specialize (IH s1).
    destruct (run config lookup b s1 es) as [s2 out2]. cbn [snd] in *.
    rewrite forallb_app, P, IH. reflexivity.
Qed.

(** X9: as long as no [init] frame has been accepted, nothing is emitted
    on the bus: data and signals sent before the job exists are never
    kept for it. *)
Theorem nothing_emitted_before_a_job
    (config : Config) (lookup : string -> string -> option Runtime) (b : behaviour)
    (es : list event) (s : session) :
  s.(job) = None ->
  existsb (creates_job config lookup) es = false ->
  forallb (fun x => negb (Trace.is_emit x)) (snd (run config lookup b s es)) = true.
Proof.
  revert s. induction es as [|e es IH]; intros s J C; cbn [run].
  - reflexivity.
  - cbn [existsb] in C. apply orb_false_iff in C as [C1 C2].
    pose proof (step_silent_without_job config lookup b s e J) as P.
    pose proof (proj2 (step_without_job config lookup b s e J) C1) as K.
    destruct (step config lookup b s e) as [s1 out1]. cbn [fst snd] in *.
    specialize (IH s1 K C2).
    destruct (run config lookup b s1 es) as [s2 out2]. cbn [snd] in *.
    rewrite forallb_app, P, IH. reflexivity.
Qed.

Lemma nothing_emitted_before_a_job_witness :
  forallb (fun x => negb (Trace.is_emit x))
    (snd (run Samples.ceilings Samples.registry Samples.prints_two
            (fst (connect (idle 2)))
            [Message (Parsed Samples.hello); Message (Parsed Samples.terminate);
             TimerFired]))
  = true.
Proof.
  apply (nothing_emitted_before_a_job Samples.ceilings Samples.registry
           Samples.prints_two
           [Message (Parsed Samples.hello); Message (Parsed Samples.terminate);
            TimerFired]
           (fst (connect (idle 2))));
    reflexivity.
Defined.

(** X10: a frame the handler has no case for (a value without a [type],
    such as a number, a string or an array, or with another [type]) is
    dropped without a trace: taking it out of a sequence of events changes
    neither what the session does nor where it ends. *)
Theorem unknown_frames_leave_no_trace
    (config : Config) (lookup : string -> string -> option Runtime) (b : behaviour)
    (before after : list event) (msg : value) (s : session) :
  Trace.unknown_type msg = true ->
  run config lookup b s (before ++ Message (Parsed msg) :: after)
  = run config lookup b s (before ++ after).
Proof.
  intros U. rewrite !run_app. cbn [run step].
  assert (forall s', on_message config lookup s' (Parsed msg) = (s', [])) as O.
  { intros s'. rewrite on_message_flat. unfold Trace.unknown_type in U.
    destruct (prop msg "type") as [type|e]; [|discriminate U].
    apply andb_prop in U as [U S]. apply andb_prop in U as [I D].
    apply negb_true_iff in I, D, S. rewrite I, D, S. reflexivity. }
  rewrite O.
  destruct (run config lookup b (fst (run config lookup b s before)) after).
  reflexivity.
Qed.

Lemma unknown_frames_leave_no_trace_witness :
  run Samples.ceilings Samples.registry Samples.prints_two Samples.running
    ([Message (Parsed Samples.hello)]
     ++ Message (Parsed Examples.ping) :: [ExecuteSettled])
  = run Samples.ceilings Samples.registry Samples.prints_two Samples.running
      ([Message (Parsed Samples.hello)] ++ [ExecuteSettled]).
Proof.
  apply (unknown_frames_leave_no_trace Samples.ceilings Samples.registry
           Samples.prints_two
           [Message (Parsed Samples.hello)] [ExecuteSettled] Examples.ping
           Samples.running).
  reflexivity.
Defined.

Lemma check_files_message (fs : list value) :
  forall i e, check_files i fs = Some e -> exists text, message_of e = Ok (Str text).
Proof.
  induction fs as [|file rest IH]; intros i e; cbn [check_files].
  - discriminate.
  - destruct (prop file "content") as [content|t] eqn:P.
    + destruct (negb (String.eqb (typeof content) "string")).
      * intros H. inversion H. eexists. reflexivity.
      * apply IH.
    + intros H. inversion H; subst.
      destruct file; inversion P; eexists; reflexivity.
Qed.

(** X11: what the handler does with an [init] frame.  Up to where it
    returns: on a session that has a job it closes with code 4000 without
    looking at the request; on a session without one it does nothing yet,
    and waits at [get_job] with [job] still [null].  When it resumes: a
    rejection is answered with an [error] message carrying the
    rejection's message and a close with code 4002, the session as it
    was; an accepted request is assigned to [job], in place of whatever
    [job] holds by then, and [prime] is called on the new job, nothing
    being sent yet. *)
Theorem init_frame_cases
    (config : Config) (lookup : string -> string -> option Runtime)
    (s resumed : session) (msg : value) :
  prop msg "type" = Ok (Str "init") ->
  match s.(job) with
  | Some _ =>
      receive config lookup s (Parsed msg)
      = (s, [Close 4000 "Already Initialized"], None)
  | None =>
      receive config lookup s (Parsed msg)
      = (s, [], Some (get_job config lookup msg))
  end
  /\ match get_job config lookup msg with
     | Throw e =>
         exists text,
           message_of e = Ok (Str text)
           /\ resume resumed (Throw e)
              = (resumed, [Send (Obj [("type", Str "error"); ("message", Str text)]);
                           Close 4002 "Notified Error"])
     | Ok j =>
         exists m,
           resume resumed (Ok j)
           = ({| job := Some j; init := AwaitingPrime; engine := m |}, [])
           /\ m.(state) = Created /\ m.(slot) = None /\ m.(calls) = [Prime]
           /\ m.(free) = resumed.(engine).(free)
     end.
Proof.
  intros T. split.
  - unfold receive. rewrite T.
    change (is_text (Str "init") "init") with true. cbv iota.
    destruct (job s); reflexivity.
  - destruct (get_job config lookup msg) as [j|e] eqn:G.
    + eexists. split; [reflexivity|]. repeat split.
    + assert (exists text, message_of e = Ok (Str text)) as [text M].
      { unfold get_job in G.
        destruct (prop msg "language") as [v|t] eqn:P.
        - repeat match type of G with
                 | (if ?c then _ else _) = _ => destruct c
                 | match ?c with _ => _ end = _ => destruct c eqn:?
                 end;
            try discriminate G;
            try (inversion G; eexists; reflexivity).
          all: inversion G; subst;
            match goal with
            | H : check_files _ _ = Some _ |- _ =>
                apply check_files_message in H; exact H
            | H : check_memory_limit _ _ _ = Some _ |- _ =>
                apply check_memory_limit_complaint in H
                  as [_ [[_ ->] | (n & _ & _ & _ & ->)]];
                eexists; reflexivity
            end.
        - inversion G; subst. destruct msg; inversion P; eexists; reflexivity. }
      exists text. split; [exact M|].
      unfold resume, notify_error. rewrite M. reflexivity.
Qed.

Lemma init_frame_cases_witness :
  match Samples.running.(job) with
  | Some _ =>
      receive Samples.ceilings Samples.registry Samples.running
        (Parsed Examples.init_frame)
      = (Samples.running, [Close 4000 "Already Initialized"], None)
  | None =>
      receive Samples.ceilings Samples.registry Samples.running
        (Parsed Examples.init_frame)
      = (Samples.running, [],
         Some (get_job Samples.ceilings Samples.registry Examples.init_frame))
  end
  /\ match get_job Samples.ceilings Samples.registry Examples.init_frame with
     | Throw e =>
         exists text,
           message_of e = Ok (Str text)
           /\ resume (fst (connect (idle 2))) (Throw e)
              = (fst (connect (idle 2)),
                 [Send (Obj [("type", Str "error"); ("message", Str text)]);
                  Close 4002 "Notified Error"])
     | Ok j =>
         exists m,
           resume (fst (connect (idle 2))) (Ok j)
           = ({| job := Some j; init := AwaitingPrime; engine := m |}, [])
           /\ m.(state) = Created /\ m.(slot) = None /\ m.(calls) = [Prime]
           /\ m.(free) = (fst (connect (idle 2))).(engine).(free)
     end.
Proof.
  apply (init_frame_cases Samples.ceilings Samples.registry Samples.running
           (fst (connect (idle 2))) Examples.init_frame).
  reflexivity.
Defined.

(** A session from its accepted [init] frame to the close of the socket,
    by what the phases come to. *)
Lemma session_to_the_end
    (config : Config) (lookup : string -> string -> option Runtime) (b : behaviour)
    (m : machine) (msg : value) (j : Job) (k : nat) (rest : list nat) :
  prop msg "type" = Ok (Str "init") ->
  get_job config lookup msg = Ok j ->
  m.(free) = k :: rest ->
  b.(staging) = None ->
  run config lookup b (fst (connect m))
    [Message (Parsed msg); PrimeSettled; ExecuteSettled; SocketClosed]
  = ({| job := Some j; init := Finished;
        engine := {| state := Cleaned; slot := None; free := k :: rest;
                     acquired := S m.(acquired); released := S m.(released);
                     calls := [Prime; ExecuteInteractive; Cleanup] |} |},
     Send (Obj [("type", Str "runtime");
                ("language", Str j.(runtime).(language));
                ("version", Str j.(runtime).(version_raw))])
     :: match b.(execution) with
        | Ok _ => [Close 4999 "Job Completed"]
        | Throw e => notify_error e
        end).
Proof.
  intros T G F S.
  cbn [run step connect fst]. rewrite on_message_flat. rewrite T.
  change (is_text (Str "init") "init") with true. cbv iota.
  cbn [job]. rewrite G.
  unfold on_prime_settled. cbn [init job engine].
  unfold new_job, staged, called. cbn. rewrite F, S.
  unfold on_execute_settled. cbn [init job engine].
  unfold phases. cbn.
  destruct (execution b) as [result|e]; cbn;
    [|rewrite app_nil_r]; reflexivity.
Qed.

(** X12: a session whose request is accepted, whose job is primed and
    whose phases return sends the runtime's language and version and then
    closes with code 4999; when the socket has closed, the job has been
    primed, executed and cleaned up, in this order, and its slot is free
    again: one slot acquired, one released. *)
Theorem session_completes
    (config : Config) (lookup : string -> string -> option Runtime) (b : behaviour)
    (m : machine) (msg : value) (j : Job) (k : nat) (rest : list nat) (result : value) :
  prop msg "type" = Ok (Str "init") ->
  get_job config lookup msg = Ok j ->
  m.(free) = k :: rest ->
  b.(staging) = None ->
  b.(execution) = Ok result ->
  run config lookup b (fst (connect m))
    [Message (Parsed msg); PrimeSettled; ExecuteSettled; SocketClosed]
  = ({| job := Some j; init := Finished;
        engine := {| state := Cleaned; slot := None; free := k :: rest;
                     acquired := S m.(acquired); released := S m.(released);
                     calls := [Prime; ExecuteInteractive; Cleanup] |} |},
     [Send (Obj [("type", Str "runtime");
                 ("language", Str j.(runtime).(language));
                 ("version", Str j.(runtime).(version_raw))]);
      Close 4999 "Job Completed"]).
Proof.
  intros T G F S E.
  rewrite (session_to_the_end config lookup b m msg j k rest T G F S), E.
  reflexivity.
Qed.

Lemma session_completes_witness :
  run Samples.ceilings Samples.registry Samples.prints_two (fst (connect (idle 2)))
    [Message (Parsed Examples.init_frame); PrimeSettled; ExecuteSettled; SocketClosed]
  = ({| job := Some (job_of Samples.ceilings Samples.python Examples.init_frame);
        init := Finished;
        engine := {| state := Cleaned; slot := None; free := [0%nat; 1%nat];
                     acquired := 1; released := 1;
                     calls := [Prime; ExecuteInteractive; Cleanup] |} |},
     [Send (Obj [("type", Str "runtime"); ("language", Str "python");
                 ("version", Str "3.10.0")]);
      Close 4999 "Job Completed"]).
Proof.
  apply (session_completes Samples.ceilings Samples.registry Samples.prints_two
           (idle 2) Examples.init_frame
           (job_of Samples.ceilings Samples.python Examples.init_frame)
           0%nat [1%nat]
           (Obj [("language", Str "python"); ("version", Str "3.10.0");
                 ("run", Obj [("stdout", Str "2"); ("code", Num (of_Z 0))])]));
    reflexivity.
Defined.

(** X13: on a session, an error thrown while the phases run does not
    cost the slot: the client is sent the error's message and the socket
    is closed with code 4002, and when the socket has closed the job has
    been cleaned up and its slot is free again, unlike on [POST
    /execute].  This is for an error whose message can be read, that is,
    for anything thrown but [null] and [undefined]. *)
Theorem session_error_still_cleans_up
    (config : Config) (lookup : string -> string -> option Runtime) (b : behaviour)
    (m : machine) (msg : value) (j : Job) (k : nat) (rest : list nat)
    (e : thrown) (message : value) :
  prop msg "type" = Ok (Str "init") ->
  get_job config lookup msg = Ok j ->
  m.(free) = k :: rest ->
  b.(staging) = None ->
  b.(execution) = Throw e ->
  message_of e = Ok message ->
  run config lookup b (fst (connect m))
    [Message (Parsed msg); PrimeSettled; ExecuteSettled; SocketClosed]
  = ({| job := Some j; init := Finished;
        engine := {| state := Cleaned; slot := None; free := k :: rest;
                     acquired := S m.(acquired); released := S m.(released);
                     calls := [Prime; ExecuteInteractive; Cleanup] |} |},
     [Send (Obj [("type", Str "runtime");
                 ("language", Str j.(runtime).(language));
                 ("version", Str j.(runtime).(version_raw))]);
      Send (Obj [("type", Str "error"); ("message", message)]);
      Close 4002 "Notified Error"]).
Proof.
  intros T G F S E M.
  rewrite (session_to_the_end config lookup b m msg j k rest T G F S), E.
  unfold notify_error. rewrite M. reflexivity.
Qed.

Lemma session_error_still_cleans_up_witness :
  run Samples.ceilings Samples.registry Samples.broken_pipe (fst (connect (idle 2)))
    [Message (Parsed Examples.init_frame); PrimeSettled; ExecuteSettled; SocketClosed]
  = ({| job := Some (job_of Samples.ceilings Samples.python Examples.init_frame);
        init := Finished;
        engine := {| state := Cleaned; slot := None; free := [0%nat; 1%nat];
                     acquired := 1; released := 1;
                     calls := [Prime; ExecuteInteractive; Cleanup] |} |},
     [Send (Obj [("type", Str "runtime"); ("language", Str "python");
                 ("version", Str "3.10.0")]);
      Send (Obj [("type", Str "error"); ("message", Str "write EPIPE")]);
      Close 4002 "Notified Error"]).
Proof.
  apply (session_error_still_cleans_up Samples.ceilings Samples.registry
           Samples.broken_pipe (idle 2) Examples.init_frame
           (job_of Samples.ceilings Samples.python Examples.init_frame)
           0%nat [1%nat] (ErrorObject "Error" "write EPIPE") (Str "write EPIPE"));
    reflexivity.
Defined.

(** ** More about the mono compile script *)










Lemma read_remove (name : string) (d : dir) : read name (remove name d) = None.
Proof.
  induction d as [|[n t] rest IH]; simpl; [reflexivity|].
  destruct (String.eqb name n) eqn:E; [exact IH|].
  simpl. rewrite E. exact IH.
Qed.





(** X16: the exit statuses of [rename] and of the compiler play no part
    in the script: with programs that write the same output and leave the
    same files but exit differently, the script writes the same, leaves
    the same directory, runs the same programs and exits the same.  In
    particular a failed [rename] does not keep the compiler from
    running. *)
Theorem exit_statuses_do_not_matter
    (t1 t2 : tools) (lang : string) (args : list string) (d : dir) :
  Glob.same_outputs t1 t2 ->
  compile t1 lang args d = compile t2 lang args d.
Proof.
  intros (R & C & V). unfold compile.
  destruct (String.eqb lang "csharp").
  - rewrite !branch_result. cbv zeta.
    destruct (R ("s/$/\.cs/" :: args) d) as (O1 & E1 & A1).
    rewrite O1, E1, A1.
    destruct (C ("-out:out" :: expand ".cs" (after (rename t2 ("s/$/\.cs/" :: args) d)))
                (after (rename t2 ("s/$/\.cs/" :: args) d))) as (O2 & E2 & A2).
    rewrite O2, E2, A2. reflexivity.
  - destruct (String.eqb lang "basic"); [|reflexivity].
    rewrite !branch_result. cbv zeta.
    destruct (R ("s/$/\.vb/" :: args) d) as (O1 & E1 & A1).
    rewrite O1, E1, A1.
    destruct (V ("-out:out" :: expand ".vb" (after (rename t2 ("s/$/\.vb/" :: args) d)))
                (after (rename t2 ("s/$/\.vb/" :: args) d))) as (O2 & E2 & A2).
    rewrite O2, E2, A2. reflexivity.
Qed.

Lemma exit_statuses_do_not_matter_witness :
  compile Samples.toolbox "csharp" ["file0.code"] Samples.staged
  = compile (Examples.failing Samples.toolbox) "csharp" ["file0.code"] Samples.staged.
Proof.
  apply (exit_statuses_do_not_matter Samples.toolbox (Examples.failing Samples.toolbox)
           "csharp" ["file0.code"] Samples.staged).
  repeat split.
Defined.

(** X17: [check_errors] on its own.  When [check.txt] is there its text
    goes to exactly one of the two streams, standard error if the pattern
    is found in it and standard output if not, the file is removed and
    the status is 0.  When it is missing nothing is written to standard
    output, the directory stays as it is, and the status is 1, that of
    [rm]. *)
Theorem check_errors_by_file (p : process) :
  match read "check.txt" p.(cwd) with
  | Some text =>
      snd (check_errors p) = 0
      /\ read "check.txt" (fst (check_errors p)).(cwd) = None
      /\ ((grep_error text = true
           /\ (fst (check_errors p)).(stderr) = p.(stderr) ++ text
           /\ (fst (check_errors p)).(stdout) = p.(stdout))
          \/ (grep_error text = false
              /\ (fst (check_errors p)).(stdout) = p.(stdout) ++ text
              /\ (fst (check_errors p)).(stderr) = p.(stderr)))
  | None =>
      snd (check_errors p) = 1
      /\ (fst (check_errors p)).(stdout) = p.(stdout)
      /\ (fst (check_errors p)).(cwd) = p.(cwd)
  end.
Proof.
  destruct (read "check.txt" (cwd p)) as [text|] eqn:R.
  - rewrite (check_errors_with_file p text R). cbn [fst snd cwd stdout stderr].
    split; [reflexivity|]. split; [apply read_remove|].
    destruct (grep_error text); [left | right]; repeat split.
  - unfold check_errors, grep_q, cat, rm. rewrite R. cbn. rewrite R. cbn. rewrite R.
    repeat split.
Qed.

(** ** The package routes *)

(** X18: [POST /packages] and [DELETE /packages] start their operation
    only on the package the catalogue returned, and once.  An unknown
    package is answered 404 with nothing started; an operation that
    returns is answered 200 with what it returned; one that throws
    something whose message can be read is answered 500 with that
    message, which is also logged.  Nothing is answered when reading the
    request or the catalogue throws, nothing being started then, or when
    the operation throws [null] or [undefined], whose message cannot be
    read. *)
Theorem package_routes_answer
    (to_string : value -> string)
    (get_package : value -> value -> outcome (option Packages.Package))
    (perform : Packages.operation -> Packages.Package -> outcome value)
    (op : Packages.operation) (req : value) :
  match Packages.change_package to_string get_package perform op req with
  | (done, Ok r) =>
      match get_package (field req "language") (field req "version") with
      | Ok None => r.(status) = 404 /\ Packages.started done = []
      | Ok (Some pkg) =>
          Packages.started done = [(op, pkg)]
          /\ match perform op pkg with
             | Ok response => r = {| status := 200; body := response |}
             | Throw e =>
                 exists message,
                   message_of e = Ok message
                   /\ r = {| status := 500; body := Obj [("message", message)] |}
                   /\ In (Packages.LogError (Packages.error_line op pkg) message) done
             end
      | Throw _ => False
      end
  | (done, Throw t) =>
      (Packages.started done = []
       /\ (prop req "language" = Throw t
           \/ get_package (field req "language") (field req "version") = Throw t))
      \/ (exists pkg e,
            get_package (field req "language") (field req "version") = Ok (Some pkg)
            /\ perform op pkg = Throw e
            /\ message_of e = Throw t
            /\ done = [Packages.LogDebug (Packages.request_line op);
                       Packages.Started op pkg])
  end.
Proof.
  unfold Packages.change_package.
  destruct (prop req "language") as [v|t].
  - destruct (get_package (field req "language") (field req "version"))
      as [[pkg|]|t].
    + destruct (perform op pkg) as [response|e] eqn:P; cbn.
      * split; reflexivity.
      * destruct (message_of e) as [message|t] eqn:M.
        -- split; [reflexivity|]. exists message.
           split; [reflexivity|]. split; [reflexivity|].
           right. right. left. reflexivity.
        -- right. exists pkg, e. repeat split; assumption.
    + split; reflexivity.
    + left. split; [reflexivity|]. right. reflexivity.
  - left. split; [reflexivity|]. left. reflexivity.
Qed.
